(** * SecureGist: the gist lifecycle of [backend/src], embedded in Rocq

    The development follows the Python sources file by file:
    - [models.py]   -> module [Gist] (one row of the table "gists");
    - [schemas.py]  -> modules [GistCreate], [GistCreateResponse], [GistResponse];
    - [storage.py]  -> [Storage], [_replace_endpoint], [generate_presigned_post],
                       [generate_presigned_url], [storage_delete];
    - [crud.py]     -> [create_gist], [get_gist], [delete_gist];
    - [api.py]      -> [api_create_gist], [api_get_gist], [api_delete_gist].

    Handlers are written in a state-and-exception monad over a [World]
    holding the table and the chronological trace of every commit, S3
    call and [print].  What Python leaves to its environment is an
    explicit input: the clock ([now]), the identifier drawn by [uuid4],
    the S3 provider (an oracle that sees the trace so far) and the two
    [datetime] library functions [fromisoformat] and [isoformat].
    Requests are served one at a time. *)

From Stdlib Require Import ZArith NArith Ascii String List Lia.
From stdpp Require Import base option gmap strings list.
Import ListNotations.

Local Open Scope string_scope.
Local Open Scope Z_scope.

(** ** Values *)

#[local] Set Warnings "-register-all".

(** A JSON document as [json.loads] builds it: [dict] is an association
    list in insertion order.  The server never looks inside a document; a
    [float] is kept as its binary64 bit pattern. *)
Inductive JSON : Type :=
| JNull
| JBool (b : bool)
| JInt (n : Z)
| JFloat (binary64 : Z)
| JStr (s : string)
| JArr (items : list JSON)
| JObj (members : list (string * JSON)).

(** Python [dict] with string keys. *)
Definition dict : Type := list (string * JSON).

(** A naive [datetime]: microseconds since 0001-01-01T00:00:00 on the
    proleptic Gregorian time line.  Comparison of naive datetimes is
    comparison of these numbers. *)
Definition datetime : Type := Z.

(** [datetime.min] and [datetime.max] (9999-12-31T23:59:59.999999; the
    ordinal of its date is 3652059). *)
Definition datetime_min : datetime := 0.
Definition datetime_max : datetime := 3652059 * 86400 * 1000000 - 1.

(** What [datetime.fromisoformat] returns: the wall-clock fields read off
    the string and, when the string carries one, the UTC offset in
    microseconds. *)
Record parsed_datetime : Type := mk_parsed {
  wall : datetime;
  tzinfo : option Z
}.

(** [dt.astimezone(timezone.utc).replace(tzinfo=None)] for an aware [dt]
    with offset [utcoffset]: [dt] itself when its zone is already UTC,
    otherwise [dt - utcoffset], which overflows ([None]) outside
    [datetime.min .. datetime.max]. *)
Definition astimezone_utc_naive (dt : parsed_datetime) (utcoffset : Z) : option datetime :=
  if utcoffset =? 0 then Some (wall dt)
  else
    let utc := wall dt - utcoffset in
    if (datetime_min <=? utc) && (utc <=? datetime_max) then Some utc else None.

(** Truthiness of a Python [str]. *)
Definition str_truthy (s : string) : bool :=
  match s with
  | EmptyString => false
  | String _ _ => true
  end.

(** ** models.py

    [Integer] columns hold Python's unbounded [int]; the width the database
    gives them is not modelled. *)

Module Gist.
Record t : Type := mk {
  gist_id : N;
  gist_metadata : dict;
  created_at : datetime;
  expiration_date : option datetime;
  read_count : Z;
  max_reads : Z;
  version_history : option (list JSON)
}.

(** [gist.read_count += 1]: an attribute assignment on the mapped object. *)
Definition set_read_count (g : t) (n : Z) : t :=
  {| gist_id := gist_id g;
     gist_metadata := gist_metadata g;
     created_at := created_at g;
     expiration_date := expiration_date g;
     read_count := n;
     max_reads := max_reads g;
     version_history := version_history g |}.
End Gist.

(** ** schemas.py *)

Module GistCreate.
Record t : Type := mk {
  gist_metadata : dict;
  expiration_date : option string;
  max_reads : option Z
}.
End GistCreate.

(** The shape boto3 documents for [generate_presigned_post]: a ['url'] and
    the form ['fields'].  A value of this shape is a non-empty [dict] with
    the key ['url']. *)
Record PresignedPost : Type := mk_presigned_post {
  post_url : string;
  post_fields : list (string * string)
}.

Module GistCreateResponse.
Record t : Type := mk {
  gist_id : N;
  upload_params : PresignedPost
}.
End GistCreateResponse.

Module GistResponse.
Record t : Type := mk {
  gist_id : N;
  download_url : option string;
  gist_metadata : dict;
  expiration_date : option string;
  read_count : Z;
  max_reads : Z;
  version_history : option (list JSON)
}.
End GistResponse.

(** ** The world the handlers run in *)

(** One entry per externally visible effect, oldest first. *)
Inductive Event : Type :=
| EvInsert (row : Gist.t)
| EvUpdate (row : Gist.t)
| EvDelete (id : N)
| EvPresignedPost (bucket key : string)
| EvPresignedUrl (bucket key : string)
| EvDeleteObject (bucket key : string)
| EvPrint (line : string).

Record World : Type := mk_world {
  gists : gmap N Gist.t;
  trace : list Event
}.

Definition log (e : Event) (w : World) : World :=
  {| gists := gists w; trace := trace w ++ [e] |}.

Definition set_gists (m : gmap N Gist.t) (w : World) : World :=
  {| gists := m; trace := trace w |}.

(** Exceptions that leave a handler.  [BotoCoreError] stands for the
    exceptions of [botocore.exceptions] that are no [ClientError]
    ([EndpointConnectionError], [NoCredentialsError], ...), with the name
    of the class raised. *)
Inductive Exc : Type :=
| HTTPException (status_code : Z) (detail : string)
| ValueError
| OverflowError
| IntegrityError
| BotoCoreError (class : string).

Inductive Outcome (A : Type) : Type :=
| Return (a : A)
| Raise (e : Exc).
Arguments Return {A} a.
Arguments Raise {A} e.

(** State and exceptions: the world reached so far survives a [raise]. *)
Definition M (A : Type) : Type := World -> Outcome A * World.

Definition ret {A} (a : A) : M A := fun w => (Return a, w).

Definition raise {A} (e : Exc) : M A := fun w => (Raise e, w).

Definition bind {A B} (c : M A) (k : A -> M B) : M B :=
  fun w =>
    match c w with
    | (Return a, w') => k a w'
    | (Raise e, w') => (Raise e, w')
    end.

Notation "'let*' x ':=' c 'in' k" := (bind c (fun x => k))
  (at level 10, x name, c at level 100, k at level 200).
Notation "c ';;' k" := (bind c (fun _ => k))
  (at level 100, k at level 200, right associativity).

Definition emit (e : Event) : M unit := fun w => (Return tt, log e w).

Definition history : M (list Event) := fun w => (Return (trace w), w).

(** ** Python built-ins used by the sources *)

(** [sub in s] on [str]. *)
Fixpoint str_contains (sub s : string) : bool :=
  String.prefix sub s ||
  match s with
  | EmptyString => false
  | String _ rest => str_contains sub rest
  end.

(** [s.replace(old, new)] for a non-empty [old]: leftmost, non-overlapping
    occurrences.  [skip] counts the characters of a matched [old] that are
    still to be dropped. *)
Fixpoint str_replace_from (skip : nat) (old new s : string) : string :=
  match s with
  | EmptyString => EmptyString
  | String c rest =>
      match skip with
      | S k => str_replace_from k old new rest
      | O =>
          if String.prefix old s
          then new ++ str_replace_from (Nat.pred (String.length old)) old new rest
          else String c (str_replace_from O old new rest)
      end
  end.

(** [s.replace(old, new)]; an empty [old] matches before every character
    and at the end. *)
Definition str_replace (old new s : string) : string :=
  match old with
  | EmptyString =>
      (fix between (t : string) : string :=
         match t with
         | EmptyString => new
         | String c rest => new ++ String c (between rest)
         end) s
  | String _ _ => str_replace_from O old new s
  end.

Definition hex_digit (d : N) : ascii :=
  match d with
  | 0 => "0" | 1 => "1" | 2 => "2" | 3 => "3" | 4 => "4" | 5 => "5"
  | 6 => "6" | 7 => "7" | 8 => "8" | 9 => "9" | 10 => "a" | 11 => "b"
  | 12 => "c" | 13 => "d" | 14 => "e" | _ => "f"
  end%N%char.

(** ['%0<width>x' % n], keeping the low [width] digits. *)
Fixpoint hex_fixed (width : nat) (n : N) (acc : string) : string :=
  match width with
  | O => acc
  | S w => hex_fixed w (n / 16)%N (String (hex_digit (n mod 16)%N) acc)
  end.

(** [str(u)] for a [uuid.UUID] with integer value [u]: 8-4-4-4-12. *)
Definition uuid_str (u : N) : string :=
  let hex := hex_fixed 32 u "" in
  substring 0 8 hex ++ "-" ++ substring 8 4 hex ++ "-" ++
  substring 12 4 hex ++ "-" ++ substring 16 4 hex ++ "-" ++
  substring 20 12 hex.

(** ** storage.py *)

(** A call into the boto3 client either returns or raises
    [botocore.exceptions.ClientError], the provider failure [Storage]
    handles.  Exceptions of other classes are outside this type; module
    [AnyException] below carries them through the delete path. *)
Inductive ProviderResult (A : Type) : Type :=
| Responded (response : A)
| ClientError (message : string).
Arguments Responded {A} response.
Arguments ClientError {A} message.

(** The S3 provider behind [boto3.client("s3", ...)].  Each operation may
    answer differently from one call to the next: it is given the trace of
    everything that happened before the call, then [Bucket], [Key], for a
    presigned POST the upper end of [content-length-range], and
    [ExpiresIn]. *)
Record S3Client : Type := mk_s3_client {
  s3_generate_presigned_post :
    list Event -> string -> string -> Z -> Z -> ProviderResult PresignedPost;
  s3_generate_presigned_url :
    list Event -> string -> string -> Z -> ProviderResult string;
  s3_delete_object :
    list Event -> string -> string -> ProviderResult unit
}.

Record Storage : Type := mk_storage {
  bucket_name : string;
  endpoint_url : option string;
  public_endpoint_url : option string;
  s3_client : S3Client
}.

(** [Storage.__init__], with the process environment as [getenv]. *)
Definition Storage_init (getenv : string -> option string) (client : S3Client) : Storage :=
  {| bucket_name := default "securegist-dev" (getenv "S3_BUCKET_NAME");
     endpoint_url := getenv "S3_ENDPOINT_URL";
     public_endpoint_url := getenv "S3_PUBLIC_ENDPOINT_URL";
     s3_client := client |}.

(** Truthiness of an [Optional[str]]. *)
Definition opt_str_truthy (o : option string) : bool :=
  match o with
  | Some s => str_truthy s
  | None => false
  end.

Definition _replace_endpoint (self : Storage) (url : string) : string :=
  match endpoint_url self, public_endpoint_url self with
  | Some internal, Some public =>
      if str_truthy internal && str_truthy public && str_contains internal url
      then str_replace internal public url
      else url
  | _, _ => url
  end.

Definition generate_presigned_post (self : Storage) (key : string)
    (max_size_bytes : Z) : M (option PresignedPost) :=
  let* h := history in
  emit (EvPresignedPost (bucket_name self) key) ;;
  match s3_generate_presigned_post (s3_client self) h (bucket_name self) key
          max_size_bytes 3600 with
  | Responded response =>
      ret (Some {| post_url := _replace_endpoint self (post_url response);
                   post_fields := post_fields response |})
  | ClientError e =>
      emit (EvPrint ("S3 Presigned Post Error: " ++ e)) ;;
      ret None
  end.

Definition generate_presigned_url (self : Storage) (key : string) : M (option string) :=
  let* h := history in
  emit (EvPresignedUrl (bucket_name self) key) ;;
  match s3_generate_presigned_url (s3_client self) h (bucket_name self) key 3600 with
  | Responded response =>
      ret (if str_truthy response then Some (_replace_endpoint self response) else None)
  | ClientError e =>
      emit (EvPrint ("S3 Presigned URL Error: " ++ e)) ;;
      ret None
  end.

Definition storage_delete (self : Storage) (key : string) : M bool :=
  let* h := history in
  emit (EvDeleteObject (bucket_name self) key) ;;
  match s3_delete_object (s3_client self) h (bucket_name self) key with
  | Responded _ => ret true
  | ClientError e =>
      emit (EvPrint ("S3 Delete Error: " ++ e)) ;;
      ret false
  end.

(** ** The table "gists", as the session reaches it

    [db.py] and [dependencies.py], which configure the engine and hand each
    request its [AsyncSession], are not among the sources.  The session is
    taken to be what the specification calls the Gist Record Store: plain
    persistence keyed by id, in which a committed change is visible to the
    next request and a loaded object stays readable after [commit] (the
    test fixtures build it with [expire_on_commit=False]).  The route
    parameter [gist_id: str] is taken as the UUID it denotes. *)

(** Modelled from the spec: [fetchById] of the Gist Record Store, for
    [select(Gist).where(Gist.gist_id == gist_id)] then [scalar_one_or_none()]
    on the session of the missing [dependencies.get_db]. *)
Definition select_gist (gist_id : N) : M (option Gist.t) :=
  fun w => (Return (gists w !! gist_id), w).

(** Modelled from the spec: [create] of the Gist Record Store, for
    [db.add(gist); await db.commit()] on the session of the missing
    [dependencies.get_db]: the INSERT; the primary key rejects a second row
    with the same [gist_id]. *)
Definition db_add_commit (gist : Gist.t) : M unit :=
  fun w =>
    match gists w !! Gist.gist_id gist with
    | Some _ => (Raise IntegrityError, w)
    | None =>
        (Return tt, log (EvInsert gist) (set_gists (<[Gist.gist_id gist := gist]> (gists w)) w))
    end.

(** Modelled from the spec: [incrementReadCount] of the Gist Record Store,
    for [await db.commit()] after [gist.read_count += 1] on the session of
    the missing [dependencies.get_db]: the UPDATE of the loaded row's one
    dirty column. *)
Definition db_commit_read_count (gist : Gist.t) : M unit :=
  fun w =>
    (Return tt,
     log (EvUpdate gist)
       (set_gists
          (alter (fun row => Gist.set_read_count row (Gist.read_count gist))
             (Gist.gist_id gist) (gists w)) w)).

(** Modelled from the spec: [delete] of the Gist Record Store, for
    [await db.delete(gist); await db.commit()] on the session of the
    missing [dependencies.get_db]. *)
Definition db_delete_commit (gist : Gist.t) : M unit :=
  fun w =>
    (Return tt,
     log (EvDelete (Gist.gist_id gist))
       (set_gists (delete (Gist.gist_id gist) (gists w)) w)).

Section Handlers.

(** [datetime.fromisoformat]: [None] stands for the [ValueError] it raises
    on a string it cannot parse. *)
Variable fromisoformat : string -> option parsed_datetime.

(** [datetime.isoformat] on a naive datetime. *)
Variable isoformat : datetime -> string.

(** The singleton [storage = Storage()]. *)
Variable storage : Storage.

(** ** crud.py *)

(** The [Gist(...)] constructor followed by the INSERT: the column defaults
    fill what the constructor was not given, or was given as [None]
    ([uuid4] for [gist_id], the clock for [created_at], 0 for [read_count],
    100 for [max_reads]). *)
Definition Gist_new (uuid4 : N) (now : datetime) (gist_metadata : dict)
    (expiration_date : option datetime) (max_reads : option Z) : Gist.t :=
  {| Gist.gist_id := uuid4;
     Gist.gist_metadata := gist_metadata;
     Gist.created_at := now;
     Gist.expiration_date := expiration_date;
     Gist.read_count := 0;
     Gist.max_reads := default 100 max_reads;
     Gist.version_history := None |}.

Definition create_gist (uuid4 : N) (now : datetime) (gist_metadata : dict)
    (expiration_date : option string) (max_reads : option Z) : M Gist.t :=
  let* exp_date :=
    (if opt_str_truthy expiration_date then
       match fromisoformat (default "" expiration_date) with
       | None => raise ValueError
       | Some dt =>
           match tzinfo dt with
           | Some utcoffset =>
               match astimezone_utc_naive dt utcoffset with
               | Some utc => ret (Some utc)
               | None => raise OverflowError
               end
           | None => ret (Some (wall dt))
           end
       end
     else ret None) in
  let gist := Gist_new uuid4 now gist_metadata exp_date max_reads in
  db_add_commit gist ;;
  ret gist.

Definition get_gist (gist_id : N) : M (option Gist.t) :=
  select_gist gist_id.

Definition delete_gist (gist_id : N) : M (option Gist.t) :=
  let* gist := select_gist gist_id in
  match gist with
  | Some g =>
      db_delete_commit g ;;
      storage_delete storage (uuid_str (Gist.gist_id g)) ;;
      ret (Some g)
  | None => ret None
  end.

(** ** api.py *)

(** [gist.expiration_date and gist.expiration_date < now]. *)
Definition expired (gist : Gist.t) (now : datetime) : bool :=
  match Gist.expiration_date gist with
  | Some e => (e <? now)%Z
  | None => false
  end.

Definition api_create_gist (uuid4 : N) (now : datetime) (payload : GistCreate.t)
    : M GistCreateResponse.t :=
  let* gist := create_gist uuid4 now (GistCreate.gist_metadata payload)
                 (GistCreate.expiration_date payload) (GistCreate.max_reads payload) in
  let* presigned_post :=
    generate_presigned_post storage (uuid_str (Gist.gist_id gist)) 10485760 in
  match presigned_post with
  | None => raise (HTTPException 500 "Failed to generate upload URL")
  | Some post =>
      ret {| GistCreateResponse.gist_id := Gist.gist_id gist;
             GistCreateResponse.upload_params := post |}
  end.

Definition api_get_gist (now : datetime) (gist_id : N) : M GistResponse.t :=
  let* gist := get_gist gist_id in
  match gist with
  | None => raise (HTTPException 404 "Gist not found")
  | Some gist =>
      if expired gist now then
        delete_gist gist_id ;;
        raise (HTTPException 410 "Gist expired")
      else if (Gist.read_count gist >=? Gist.max_reads gist)%Z then
        delete_gist gist_id ;;
        raise (HTTPException 410 "Read limit exceeded")
      else
        let gist := Gist.set_read_count gist (Gist.read_count gist + 1) in
        db_commit_read_count gist ;;
        let* download_url :=
          generate_presigned_url storage (uuid_str (Gist.gist_id gist)) in
        ret {| GistResponse.gist_id := Gist.gist_id gist;
               GistResponse.download_url := download_url;
               GistResponse.gist_metadata := Gist.gist_metadata gist;
               GistResponse.expiration_date := isoformat <$> Gist.expiration_date gist;
               GistResponse.read_count := Gist.read_count gist;
               GistResponse.max_reads := Gist.max_reads gist;
               GistResponse.version_history := Gist.version_history gist |}
  end.

(** The 204 response carries no body. *)
Definition api_delete_gist (gist_id : N) : M unit :=
  let* gist := delete_gist gist_id in
  match gist with
  | None => raise (HTTPException 404 "Gist not found")
  | Some _ => ret tt
  end.

(** ** The application under sequential access

    One request at a time, as the test client of [tests/test_api.py] sends
    them.  A request carries what its handler reads from the environment:
    the clock, and for a create the identifier [uuid4] draws.  A GET or a
    DELETE carries the UUID its path segment denotes: the handlers take
    [gist_id: str], and a path that denotes no UUID is no request of this
    type. *)

Inductive Request : Type :=
| POST_gists (uuid4 : N) (payload : GistCreate.t)
| GET_gist (gist_id : N)
| DELETE_gist (gist_id : N).

Inductive Response : Type :=
| Created (r : Outcome GistCreateResponse.t)
| Fetched (r : Outcome GistResponse.t)
| Deleted (r : Outcome unit).

Definition handle (now : datetime) (req : Request) (w : World) : Response * World :=
  match req with
  | POST_gists uuid4 payload =>
      let (r, w') := api_create_gist uuid4 now payload w in (Created r, w')
  | GET_gist gist_id =>
      let (r, w') := api_get_gist now gist_id w in (Fetched r, w')
  | DELETE_gist gist_id =>
      let (r, w') := api_delete_gist gist_id w in (Deleted r, w')
  end.

Fixpoint serve (reqs : list (datetime * Request)) (w : World) : list Response * World :=
  match reqs with
  | [] => ([], w)
  | (now, req) :: rest =>
      let (r, w') := handle now req w in
      let (rs, w'') := serve rest w' in
      (r :: rs, w'')
  end.

End Handlers.

(** The status line of a response: the route's declared success code, the
    code of an [HTTPException], and 500 for any exception no handler is
    registered for. *)
Definition status_code_of {A} (success : Z) (r : Outcome A) : Z :=
  match r with
  | Return _ => success
  | Raise (HTTPException code _) => code
  | Raise _ => 500
  end.

Definition response_status (r : Response) : Z :=
  match r with
  | Created o => status_code_of 201 o
  | Fetched o => status_code_of 200 o
  | Deleted o => status_code_of 204 o
  end.

(** ** The delete path under every exception of the client

    [Storage.delete] wraps [delete_object] in [try ... except ClientError].
    A boto3 call can also raise an exception that is no [ClientError]: the
    [BotoCoreError] classes, raised before any answer of the provider
    arrives (no route to the endpoint, no credentials, a read timeout).
    The [except] clause does not name them, so they leave [Storage.delete],
    then [crud.delete_gist], which has no handler around the call, then
    [api_delete_gist].  The three functions are embedded here a second
    time, over a client with that third outcome. *)

Module AnyException.

Inductive ClientResult (A : Type) : Type :=
| Returned (response : A)
| RaisedClientError (message : string)
| RaisedOther (class : string).
Arguments Returned {A} response.
Arguments RaisedClientError {A} message.
Arguments RaisedOther {A} class.

(** The fields of [Storage] that [Storage.delete] reads. *)
Record Storage : Type := mk_storage {
  bucket_name : string;
  s3_delete_object : list Event -> string -> string -> ClientResult unit
}.

(** [Storage.delete]. *)
Definition storage_delete (self : Storage) (key : string) : M bool :=
  let* h := history in
  emit (EvDeleteObject (bucket_name self) key) ;;
  match s3_delete_object self h (bucket_name self) key with
  | Returned _ => ret true
  | RaisedClientError e =>
      emit (EvPrint ("S3 Delete Error: " ++ e)) ;;
      ret false
  | RaisedOther class => raise (BotoCoreError class)
  end.

(** [crud.delete_gist]. *)
Definition delete_gist (storage : Storage) (gist_id : N) : M (option Gist.t) :=
  let* gist := select_gist gist_id in
  match gist with
  | Some g =>
      db_delete_commit g ;;
      storage_delete storage (uuid_str (Gist.gist_id g)) ;;
      ret (Some g)
  | None => ret None
  end.

(** [api.api_delete_gist]. *)
Definition api_delete_gist (storage : Storage) (gist_id : N) : M unit :=
  let* gist := delete_gist storage gist_id in
  match gist with
  | None => raise (HTTPException 404 "Gist not found")
  | Some _ => ret tt
  end.


End AnyException.

(** A [Storage] of the model above, whose client raises [ClientError] or
    nothing, seen as one whose client could raise anything. *)
Definition any_exception_storage (storage : Storage) : AnyException.Storage :=
  {| AnyException.bucket_name := bucket_name storage;
     AnyException.s3_delete_object := fun h bucket key =>
       match s3_delete_object (s3_client storage) h bucket key with
       | Responded r => AnyException.Returned r
       | ClientError e => AnyException.RaisedClientError e
       end |}.

(** ** Reference instances of the environment

    The theorems below hold for every [fromisoformat], [isoformat] and
    [Storage].  The instances here make the handlers run on concrete
    requests: the date arithmetic of CPython's [datetime] module on the
    extended ISO 8601 form [YYYY-MM-DD[*HH:MM:SS[.ffffff]][Z|+HH:MM|-HH:MM]]
    (every other string is refused, also the further ISO 8601 forms that
    CPython accepts, such as [HH:MM] without seconds or a fraction of
    three digits), and two S3 providers. *)

Module Calendar.

Definition is_leap (year : Z) : bool :=
  (year mod 4 =? 0) && (negb (year mod 100 =? 0) || (year mod 400 =? 0)).

Definition days_before_year (year : Z) : Z :=
  let y := year - 1 in
  y * 365 + y / 4 - y / 100 + y / 400.

Definition DAYS_IN_MONTH : list Z :=
  [31; 28; 31; 30; 31; 30; 31; 31; 30; 31; 30; 31].

Definition DAYS_BEFORE_MONTH : list Z :=
  [0; 31; 59; 90; 120; 151; 181; 212; 243; 273; 304; 334].

Definition days_in_month (year month : Z) : Z :=
  if (month =? 2) && is_leap year then 29
  else nth (Z.to_nat (month - 1)) DAYS_IN_MONTH 0.

Definition days_before_month (year month : Z) : Z :=
  nth (Z.to_nat (month - 1)) DAYS_BEFORE_MONTH 0
  + (if (month >? 2) && is_leap year then 1 else 0).

Definition ymd2ord (year month day : Z) : Z :=
  days_before_year year + days_before_month year month + day.

Definition ord2ymd (ordinal : Z) : Z * Z * Z :=
  let n := ordinal - 1 in
  let n400 := n / 146097 in
  let n := n mod 146097 in
  let n100 := n / 36524 in
  let n := n mod 36524 in
  let n4 := n / 1461 in
  let n := n mod 1461 in
  let n1 := n / 365 in
  let n := n mod 365 in
  let year := n400 * 400 + 1 + n100 * 100 + n4 * 4 + n1 in
  if (n1 =? 4) || (n100 =? 4) then (year - 1, 12, 31)
  else
    let leapyear := (n1 =? 3) && (negb (n4 =? 24) || (n100 =? 3)) in
    let month := Z.shiftr (n + 50) 5 in
    let preceding :=
      nth (Z.to_nat (month - 1)) DAYS_BEFORE_MONTH 0
      + (if (month >? 2) && leapyear then 1 else 0) in
    if preceding >? n then
      let month' := month - 1 in
      let preceding' :=
        preceding - (nth (Z.to_nat (month' - 1)) DAYS_IN_MONTH 0
                     + (if (month' =? 2) && leapyear then 1 else 0)) in
      (year, month', n - preceding' + 1)
    else (year, month, n - preceding + 1).

Definition US_PER_SECOND : Z := 1000000.
Definition US_PER_DAY : Z := 86400 * US_PER_SECOND.

Definition digit_of (c : ascii) : option Z :=
  let n := Z.of_nat (nat_of_ascii c) in
  if (48 <=? n) && (n <=? 57) then Some (n - 48) else None.

Fixpoint digits (s : string) (acc : Z) : option Z :=
  match s with
  | EmptyString => Some acc
  | String c rest =>
      match digit_of c with
      | Some d => digits rest (10 * acc + d)
      | None => None
      end
  end.

(** The [len] decimal digits of [s] starting at [start]. *)
Definition field (s : string) (start len : nat) : option Z :=
  let f := substring start len s in
  if Nat.eqb (String.length f) len then digits f 0 else None.

Definition has_char (s : string) (i : nat) (c : ascii) : bool :=
  match String.get i s with
  | Some c' => Ascii.eqb c c'
  | None => false
  end.

Definition guard (b : bool) : option unit := if b then Some tt else None.

Definition parse_date (s : string) : option Z :=
  year ← field s 0 4;
  month ← field s 5 2;
  day ← field s 8 2;
  _ ← guard (has_char s 4 "-" && has_char s 7 "-");
  _ ← guard ((1 <=? year) && (1 <=? month) && (month <=? 12));
  _ ← guard ((1 <=? day) && (day <=? days_in_month year month));
  Some (ymd2ord year month day).

(** [Z], [+HH:MM] or [-HH:MM]; the empty suffix is a naive time. *)
Definition parse_tz (s : string) : option (option Z) :=
  match s with
  | EmptyString => Some None
  | String "Z" EmptyString => Some (Some 0)
  | String sign hhmm =>
      hh ← field hhmm 0 2;
      mm ← field hhmm 3 2;
      _ ← guard (has_char hhmm 2 ":" && Nat.eqb (String.length hhmm) 5);
      _ ← guard ((hh <=? 23) && (mm <=? 59));
      let offset := (hh * 3600 + mm * 60) * US_PER_SECOND in
      if Ascii.eqb sign "+" then Some (Some offset)
      else if Ascii.eqb sign "-" then Some (Some (- offset))
      else None
  end.

Definition parse_time (s : string) : option (Z * option Z) :=
  hh ← field s 0 2;
  mm ← field s 3 2;
  ss ← field s 6 2;
  _ ← guard (has_char s 2 ":" && has_char s 5 ":");
  _ ← guard ((hh <=? 23) && (mm <=? 59) && (ss <=? 59));
  let seconds := hh * 3600 + mm * 60 + ss in
  if has_char s 8 "." then
    us ← field s 9 6;
    tz ← parse_tz (substring 15 (String.length s) s);
    Some (seconds * US_PER_SECOND + us, tz)
  else
    tz ← parse_tz (substring 8 (String.length s) s);
    Some (seconds * US_PER_SECOND, tz).

Definition fromisoformat (s : string) : option parsed_datetime :=
  ordinal ← parse_date s;
  if Nat.eqb (String.length s) 10 then
    Some {| wall := (ordinal - 1) * US_PER_DAY; tzinfo := None |}
  else
    '(time, tz) ← parse_time (substring 11 (String.length s) s);
    Some {| wall := (ordinal - 1) * US_PER_DAY + time; tzinfo := tz |}.

(** ['%0<width>d' % n] for [0 <= n < 10 ^ width]. *)
Fixpoint dec_fixed (width : nat) (n : Z) (acc : string) : string :=
  match width with
  | O => acc
  | S w => dec_fixed w (n / 10) (String (ascii_of_nat (Z.to_nat (48 + n mod 10))) acc)
  end.

Definition isoformat (dt : datetime) : string :=
  let '(year, month, day) := ord2ymd (dt / US_PER_DAY + 1) in
  let us_of_day := dt mod US_PER_DAY in
  let seconds := us_of_day / US_PER_SECOND in
  let us := us_of_day mod US_PER_SECOND in
  (dec_fixed 4 year "" ++ "-" ++ dec_fixed 2 month "" ++ "-" ++ dec_fixed 2 day ""
   ++ "T" ++ dec_fixed 2 (seconds / 3600) "" ++ ":"
   ++ dec_fixed 2 (seconds / 60 mod 60) "" ++ ":" ++ dec_fixed 2 (seconds mod 60) ""
   ++ (if (us =? 0)%Z then "" else "." ++ dec_fixed 6 us ""))%string.

End Calendar.

(** A provider that serves every call, answering as [MockStorage] of
    [tests/conftest.py] does. *)
Definition s3_serving : S3Client :=
  {| s3_generate_presigned_post := fun _ bucket key _ _ =>
       Responded {| post_url := "http://minio:9000/" ++ bucket;
                    post_fields := [("key", key); ("policy", "test"); ("signature", "test")] |};
     s3_generate_presigned_url := fun _ bucket key _ =>
       Responded ("http://minio:9000/" ++ bucket ++ "/" ++ key ++ "?signature=test");
     s3_delete_object := fun _ _ _ => Responded tt |}.

(** A provider that refuses every call with a [ClientError]. *)
Definition s3_refusing : S3Client :=
  {| s3_generate_presigned_post := fun _ _ _ _ _ =>
       ClientError "An error occurred (AccessDenied) when calling the PutObject operation";
     s3_generate_presigned_url := fun _ _ _ _ =>
       ClientError "An error occurred (AccessDenied) when calling the GetObject operation";
     s3_delete_object := fun _ _ _ =>
       ClientError "An error occurred (AccessDenied) when calling the DeleteObject operation" |}.


Definition docker_env (name : string) : option string :=
  if String.eqb name "S3_ENDPOINT_URL" then Some "http://minio:9000"
  else if String.eqb name "S3_PUBLIC_ENDPOINT_URL" then Some "http://localhost:9000"
  else None.

Definition storage_serving : Storage := Storage_init docker_env s3_serving.
Definition storage_refusing : Storage := Storage_init docker_env s3_refusing.


Definition empty_world : World := {| gists := ∅; trace := [] |}.

(** ** Vocabulary of the statements *)

(** The primary key of "gists": a row is stored under its own [gist_id]. *)
Definition primary_key (w : World) : Prop :=
  ∀ id g, gists w !! id = Some g → Gist.gist_id g = id.

(** A download grant was requested from the provider. *)
Definition is_grant (e : Event) : bool :=
  match e with
  | EvPresignedUrl _ _ => true
  | _ => false
  end.

(** A [read_count] was written. *)
Definition is_update (e : Event) : bool :=
  match e with
  | EvUpdate _ => true
  | _ => false
  end.

Definition is_print (e : Event) : bool :=
  match e with
  | EvPrint _ => true
  | _ => false
  end.

(** What [Storage.delete] prints when the provider, having seen [h],
    refuses to delete [key]; nothing when it complies. *)
Definition delete_complaint (storage : Storage) (h : list Event) (key : string)
    : list Event :=
  match s3_delete_object (s3_client storage) h (bucket_name storage) key with
  | Responded _ => []
  | ClientError msg => [EvPrint ("S3 Delete Error: " ++ msg)]
  end.

(** The identifier a request asks [uuid4] for, if any. *)
Definition draws (req : Request) : option N :=
  match req with
  | POST_gists uuid4 _ => Some uuid4
  | _ => None
  end.

(** No request of the list creates a gist under [id]: [uuid4] does not
    hand out an identifier twice. *)
Definition never_redrawn (id : N) (reqs : list (datetime * Request)) : Prop :=
  Forall (fun timed => draws (snd timed) ≠ Some id) reqs.

(** The [read_count] a response shows, when it is a successful read. *)
Definition read_count_seen (r : Response) : option Z :=
  match r with
  | Fetched (Return view) => Some (GistResponse.read_count view)
  | _ => None
  end.

(** [n] reads of one gist, at the given instants. *)
Definition reads (gist_id : N) (instants : list datetime) : list (datetime * Request) :=
  map (fun now => (now, GET_gist gist_id)) instants.

(** A row of the table, as [api_get_gist] shows it with grant [url]. *)
Definition view_of (isoformat : datetime -> string) (url : option string)
    (g : Gist.t) : GistResponse.t :=
  {| GistResponse.gist_id := Gist.gist_id g;
     GistResponse.download_url := url;
     GistResponse.gist_metadata := Gist.gist_metadata g;
     GistResponse.expiration_date := isoformat <$> Gist.expiration_date g;
     GistResponse.read_count := Gist.read_count g;
     GistResponse.max_reads := Gist.max_reads g;
     GistResponse.version_history := Gist.version_history g |}.

(** Through a run, the row of [id] keeps the document and the cap it was
    created with, for as long as it exists. *)
Definition tracks (id : N) (meta : dict) (cap : Z) (w : World) : Prop :=
  ∀ g, gists w !! id = Some g →
    Gist.gist_metadata g = meta
    ∧ Gist.max_reads g = cap
    ∧ 0 <= Gist.read_count g <= Z.max 0 cap.

(** Two versions of a row that agree on every column but [read_count]. *)
Definition same_but_read_count (g g' : Gist.t) : Prop :=
  Gist.gist_id g' = Gist.gist_id g
  ∧ Gist.gist_metadata g' = Gist.gist_metadata g
  ∧ Gist.created_at g' = Gist.created_at g
  ∧ Gist.expiration_date g' = Gist.expiration_date g
  ∧ Gist.max_reads g' = Gist.max_reads g
  ∧ Gist.version_history g' = Gist.version_history g.

(** How [create_gist] turns the expiration string of a request into the
    instant it stores: nothing for a falsy string, the wall clock of a
    naive timestamp, the UTC instant of an aware one. *)
Definition normalizes (fromisoformat : string -> option parsed_datetime)
    (expiration_date : option string) (stored : option datetime) : Prop :=
  if opt_str_truthy expiration_date then
    ∃ dt e,
      fromisoformat (default "" expiration_date) = Some dt
      ∧ stored = Some e
      ∧ match tzinfo dt with
        | Some utcoffset => astimezone_utc_naive dt utcoffset = Some e
        | None => wall dt = e
        end
  else stored = None.

(** The gist a request is about: the id in its path, or the id [uuid4]
    draws for it. *)
Definition target (req : Request) : N :=
  match req with
  | POST_gists uuid4 _ => uuid4
  | GET_gist gist_id => gist_id
  | DELETE_gist gist_id => gist_id
  end.



(** What every row of a table built through the API satisfies: it sits
    under its own id, has no version history, and its [read_count] lies
    between 0 and its cap (or is 0 when the cap is negative). *)
Definition row_invariant (key : N) (g : Gist.t) : Prop :=
  Gist.gist_id g = key
  ∧ Gist.version_history g = None
  ∧ 0 <= Gist.read_count g <= Z.max 0 (Gist.max_reads g).

Definition table_invariant (w : World) : Prop :=
  ∀ key g, gists w !! key = Some g → row_invariant key g.

(** Reads a trace from left to right, remembering in [pending] the row
    deletion that still awaits its blob deletion.  Accepts when every
    [EvDelete id] is followed at once by [EvDeleteObject] on the configured
    bucket with key [str(id)], and no blob is deleted otherwise. *)
Fixpoint blob_deletes_from (bucket : string) (pending : option N) (tr : list Event)
    : bool :=
  match tr with
  | [] => match pending with None => true | Some _ => false end
  | e :: rest =>
      match pending with
      | Some id =>
          match e with
          | EvDeleteObject b k =>
              String.eqb b bucket && String.eqb k (uuid_str id)
              && blob_deletes_from bucket None rest
          | _ => false
          end
      | None =>
          match e with
          | EvDelete id => blob_deletes_from bucket (Some id) rest
          | EvDeleteObject _ _ => false
          | _ => blob_deletes_from bucket None rest
          end
      end
  end.

Definition blob_deletes_follow (bucket : string) (tr : list Event) : bool :=
  blob_deletes_from bucket None tr.

(** Reads a trace from left to right, remembering in [pending] the row
    whose [read_count] write still awaits its grant request.  Accepts when
    every [EvUpdate g] is followed at once by [EvPresignedUrl] on the
    configured bucket with key [str(g.gist_id)], and no download grant is
    requested otherwise. *)
Fixpoint grants_from (bucket : string) (pending : option Gist.t) (tr : list Event)
    : bool :=
  match tr with
  | [] => match pending with None => true | Some _ => false end
  | e :: rest =>
      match pending with
      | Some g =>
          match e with
          | EvPresignedUrl b k =>
              String.eqb b bucket && String.eqb k (uuid_str (Gist.gist_id g))
              && grants_from bucket None rest
          | _ => false
          end
      | None =>
          match e with
          | EvUpdate g => grants_from bucket (Some g) rest
          | EvPresignedUrl _ _ => false
          | _ => grants_from bucket None rest
          end
      end
  end.

Definition grants_follow_updates (bucket : string) (tr : list Event) : bool :=
  grants_from bucket None tr.

(** The events one request adds to the trace, on the bucket [bucket]:
    nothing; an insert, the upload grant request and what it printed; a row
    deletion, the blob deletion and what it printed; a [read_count] write,
    the download grant request and what it printed. *)
Inductive block (bucket : string) : list Event → Prop :=
| block_nothing : block bucket []
| block_create (g : Gist.t) (prints : list Event) :
    forallb is_print prints = true →
    block bucket
      (EvInsert g :: EvPresignedPost bucket (uuid_str (Gist.gist_id g)) :: prints)
| block_destroy (id : N) (prints : list Event) :
    forallb is_print prints = true →
    block bucket (EvDelete id :: EvDeleteObject bucket (uuid_str id) :: prints)
| block_read (g : Gist.t) (prints : list Event) :
    forallb is_print prints = true →
    block bucket
      (EvUpdate g :: EvPresignedUrl bucket (uuid_str (Gist.gist_id g)) :: prints).

(** The 8-4-4-4-12 layout of [str(uuid)] over 32 hexadecimal digits. *)
Definition dashed (hex : string) : string :=
  substring 0 8 hex ++ "-" ++ substring 8 4 hex ++ "-" ++
  substring 12 4 hex ++ "-" ++ substring 16 4 hex ++ "-" ++
  substring 20 12 hex.

(** A [uuid.UUID] holds a 128-bit integer. *)
Definition UUID_LIMIT : N := 2 ^ 128.

(** ** Sample data *)

Definition sample_metadata : dict := [("iv", JStr "test_iv")].

(** 2025-01-01T12:00:00 and 2026-01-01T12:00:00. *)
Definition noon_2025 : datetime := 63871329600000000.
Definition noon_2026 : datetime := 63902865600000000.

Definition sample_gist (expiration_date : option datetime) (read_count max_reads : Z)
    : Gist.t :=
  {| Gist.gist_id := 7;
     Gist.gist_metadata := sample_metadata;
     Gist.created_at := noon_2025 - 1;
     Gist.expiration_date := expiration_date;
     Gist.read_count := read_count;
     Gist.max_reads := max_reads;
     Gist.version_history := None |}.

Definition world_with (g : Gist.t) : World :=
  {| gists := {[ Gist.gist_id g := g ]}; trace := [] |}.

Definition sample_payload (expiration_date : option string) (max_reads : option Z)
    : GistCreate.t :=
  {| GistCreate.gist_metadata := sample_metadata;
     GistCreate.expiration_date := expiration_date;
     GistCreate.max_reads := max_reads |}.

(** What [storage_serving] answers to the create of gist 7. *)
Definition sample_created : GistCreateResponse.t :=
  {| GistCreateResponse.gist_id := 7;
     GistCreateResponse.upload_params :=
       {| post_url := "http://localhost:9000/securegist-dev";
          post_fields := [("key", "00000000-0000-0000-0000-000000000007");
                          ("policy", "test"); ("signature", "test")] |} |}.

(** The download grant [storage_serving] mints for gist 7. *)
Definition sample_download_url : string :=
  "http://localhost:9000/securegist-dev/00000000-0000-0000-0000-000000000007?signature=test".

(** The world after gist 7 has been created, at noon 2025, in an empty
    table. *)
Definition created_world (payload : GistCreate.t) : World :=
  snd (api_create_gist Calendar.fromisoformat storage_serving 7 noon_2025 payload
         empty_world).

(** The application with the reference calendar. *)
Definition serve_with (storage : Storage) (reqs : list (datetime * Request)) (w : World)
    : list Response * World :=
  serve Calendar.fromisoformat Calendar.isoformat storage reqs w.

(** ** Single steps *)

Section Steps.

Variable fromisoformat : string -> option parsed_datetime.
Variable isoformat : datetime -> string.
Variable storage : Storage.

Lemma storage_delete_run (key : string) (w : World) :
  ∃ ok,
    storage_delete storage key w =
      (Return ok,
       {| gists := gists w;
          trace := trace w ++ EvDeleteObject (bucket_name storage) key
                     :: delete_complaint storage (trace w) key |}).
Proof.
  unfold storage_delete, delete_complaint, bind, history, emit, log; simpl.
  destruct (s3_delete_object _ _ _ _) as [[]|msg]; simpl.
  - exists true. reflexivity.
  - exists false. rewrite <- app_assoc. reflexivity.
Qed.

Lemma delete_complaint_prints (h : list Event) (key : string) :
  forallb is_print (delete_complaint storage h key) = true.
Proof. unfold delete_complaint. destruct (s3_delete_object _ _ _ _); reflexivity. Qed.

Lemma generate_presigned_url_spec (key : string) (w : World) :
  ∃ url prints,
    generate_presigned_url storage key w =
      (Return url,
       {| gists := gists w;
          trace := trace w ++ EvPresignedUrl (bucket_name storage) key :: prints |})
    ∧ forallb is_print prints = true.
Proof.
  unfold generate_presigned_url, bind, history, emit, log; simpl.
  destruct (s3_generate_presigned_url _ _ _ _ _) as [response|msg]; simpl.
  - eexists _, []. split; reflexivity.
  - exists None, [EvPrint ("S3 Presigned URL Error: " ++ msg)].
    rewrite <- app_assoc. split; reflexivity.
Qed.

Lemma generate_presigned_url_refused (key : string) (w : World) (msg : string) :
  s3_generate_presigned_url (s3_client storage) (trace w) (bucket_name storage) key 3600
    = ClientError msg →
  generate_presigned_url storage key w =
    (Return None,
     {| gists := gists w;
        trace := trace w ++ [EvPresignedUrl (bucket_name storage) key;
                             EvPrint ("S3 Presigned URL Error: " ++ msg)] |}).
Proof.
  intros Hrefused. unfold generate_presigned_url, bind, history, emit, log; simpl.
  rewrite Hrefused. simpl. rewrite <- app_assoc. reflexivity.
Qed.

Lemma delete_gist_missing (id : N) (w : World) :
  gists w !! id = None → delete_gist storage id w = (Return None, w).
Proof.
  intros Hw. unfold delete_gist, bind, select_gist. rewrite Hw. reflexivity.
Qed.

Lemma delete_gist_found_run (id : N) (g : Gist.t) (w : World) :
  gists w !! id = Some g →
  Gist.gist_id g = id →
  delete_gist storage id w =
    (Return (Some g),
     {| gists := delete id (gists w);
        trace := trace w ++ EvDelete id
                   :: EvDeleteObject (bucket_name storage) (uuid_str id)
                   :: delete_complaint storage (trace w ++ [EvDelete id]) (uuid_str id) |}).
Proof.
  intros Hw Hid. unfold delete_gist, bind at 1, select_gist. rewrite Hw.
  unfold bind at 1, db_delete_commit. rewrite Hid.
  unfold bind, log, set_gists. cbn [gists trace].
  destruct (storage_delete_run (uuid_str id)
              {| gists := delete id (gists w); trace := trace w ++ [EvDelete id] |})
    as (ok & ->).
  cbn [gists trace]. rewrite <- app_assoc. reflexivity.
Qed.

Lemma delete_gist_found (id : N) (g : Gist.t) (w : World) :
  gists w !! id = Some g →
  Gist.gist_id g = id →
  ∃ prints,
    delete_gist storage id w =
      (Return (Some g),
       {| gists := delete id (gists w);
          trace := trace w ++ EvDelete id
                     :: EvDeleteObject (bucket_name storage) (uuid_str id) :: prints |})
    ∧ forallb is_print prints = true.
Proof.
  intros Hw Hid. eexists. split; [apply delete_gist_found_run; assumption|].
  apply delete_complaint_prints.
Qed.

Lemma alter_present {A} (f : A → A) (m : gmap N A) (i : N) (x : A) :
  m !! i = Some x → alter f i m = <[i := f x]> m.
Proof.
  intros Hi. apply map_eq. intros j.
  destruct (decide (i = j)) as [<-|Hne].
  - rewrite lookup_alter_eq, lookup_insert_eq, Hi. reflexivity.
  - rewrite lookup_alter_ne, lookup_insert_ne by assumption. reflexivity.
Qed.

Lemma api_get_gist_missing (now : datetime) (id : N) (w : World) :
  gists w !! id = None →
  api_get_gist isoformat storage now id w =
    (Raise (HTTPException 404 "Gist not found"), w).
Proof.
  intros Hw. unfold api_get_gist, bind, get_gist, select_gist. rewrite Hw. reflexivity.
Qed.

Lemma api_get_gist_expired (now : datetime) (id : N) (g : Gist.t) (w : World) :
  gists w !! id = Some g →
  Gist.gist_id g = id →
  expired g now = true →
  ∃ prints,
    api_get_gist isoformat storage now id w =
      (Raise (HTTPException 410 "Gist expired"),
       {| gists := delete id (gists w);
          trace := trace w ++ EvDelete id
                     :: EvDeleteObject (bucket_name storage) (uuid_str id) :: prints |})
    ∧ forallb is_print prints = true.
Proof.
  intros Hw Hid Hexp.
  destruct (delete_gist_found id g w Hw Hid) as (prints & Hdel & Hprints).
  exists prints. split; [|exact Hprints].
  unfold api_get_gist, bind at 1, get_gist, select_gist. rewrite Hw, Hexp.
  unfold bind. rewrite Hdel. reflexivity.
Qed.

Lemma api_get_gist_exhausted (now : datetime) (id : N) (g : Gist.t) (w : World) :
  gists w !! id = Some g →
  Gist.gist_id g = id →
  expired g now = false →
  Gist.max_reads g <= Gist.read_count g →
  ∃ prints,
    api_get_gist isoformat storage now id w =
      (Raise (HTTPException 410 "Read limit exceeded"),
       {| gists := delete id (gists w);
          trace := trace w ++ EvDelete id
                     :: EvDeleteObject (bucket_name storage) (uuid_str id) :: prints |})
    ∧ forallb is_print prints = true.
Proof.
  intros Hw Hid Hexp Hcap.
  destruct (delete_gist_found id g w Hw Hid) as (prints & Hdel & Hprints).
  exists prints. split; [|exact Hprints].
  unfold api_get_gist, bind at 1, get_gist, select_gist. rewrite Hw, Hexp.
  replace (Gist.read_count g >=? Gist.max_reads g) with true
    by (symmetry; apply Z.geb_le; lia).
  unfold bind. rewrite Hdel. reflexivity.
Qed.

Lemma api_get_gist_within_budget (now : datetime) (id : N) (g : Gist.t) (w : World) :
  gists w !! id = Some g →
  Gist.gist_id g = id →
  expired g now = false →
  Gist.read_count g < Gist.max_reads g →
  let g' := Gist.set_read_count g (Gist.read_count g + 1) in
  ∃ url prints,
    api_get_gist isoformat storage now id w =
      (Return (view_of isoformat url g'),
       {| gists := <[id := g']> (gists w);
          trace := trace w ++ EvUpdate g'
                     :: EvPresignedUrl (bucket_name storage) (uuid_str id) :: prints |})
    ∧ forallb is_print prints = true.
Proof.
  intros Hw Hid Hexp Hcap g'.
  unfold api_get_gist, bind at 1, get_gist, select_gist. rewrite Hw, Hexp.
  replace (Gist.read_count g >=? Gist.max_reads g) with false
    by (symmetry; rewrite Z.geb_leb; apply Z.leb_gt; lia).
  fold g'. unfold bind at 1, db_commit_read_count, log, set_gists.
  cbn [gists trace Gist.gist_id Gist.read_count g' Gist.set_read_count].
  rewrite Hid, (alter_present _ _ _ _ Hw).
  destruct (generate_presigned_url_spec (uuid_str id)
              {| gists := <[id := g']> (gists w); trace := trace w ++ [EvUpdate g'] |})
    as (url & prints & Hurl & Hprints).
  exists url, prints. split; [|exact Hprints].
  unfold bind. fold g'. rewrite Hurl. cbn [gists trace].
  unfold ret, view_of. rewrite <- app_assoc.
  replace (Gist.gist_id g') with id by (symmetry; exact Hid).
  reflexivity.
Qed.

Lemma api_delete_gist_missing (id : N) (w : World) :
  gists w !! id = None →
  api_delete_gist storage id w = (Raise (HTTPException 404 "Gist not found"), w).
Proof.
  intros Hw. unfold api_delete_gist, bind. rewrite (delete_gist_missing id w Hw).
  reflexivity.
Qed.

Lemma api_delete_gist_found (id : N) (g : Gist.t) (w : World) :
  gists w !! id = Some g →
  Gist.gist_id g = id →
  ∃ prints,
    api_delete_gist storage id w =
      (Return tt,
       {| gists := delete id (gists w);
          trace := trace w ++ EvDelete id
                     :: EvDeleteObject (bucket_name storage) (uuid_str id) :: prints |})
    ∧ forallb is_print prints = true.
Proof.
  intros Hw Hid.
  destruct (delete_gist_found id g w Hw Hid) as (prints & Hdel & Hprints).
  exists prints. split; [|exact Hprints].
  unfold api_delete_gist, bind. rewrite Hdel. reflexivity.
Qed.

End Steps.

(** ** The read path *)

Section ReadPath.

Variable isoformat : datetime -> string.
Variable storage : Storage.

Lemma expired_true (g : Gist.t) (now e : datetime) :
  Gist.expiration_date g = Some e → e < now → expired g now = true.
Proof. intros He Hlt. unfold expired. rewrite He. apply Z.ltb_lt, Hlt. Qed.

(** A gist is live at [now] when it has no expiration or one not earlier
    than [now]. *)
Lemma expired_false (g : Gist.t) (now : datetime) :
  (∀ e, Gist.expiration_date g = Some e → now <= e) ↔ expired g now = false.
Proof.
  unfold expired. destruct (Gist.expiration_date g) as [e|]; split; intros H.
  - apply Z.ltb_ge, H. reflexivity.
  - intros e' [= <-]. apply Z.ltb_ge, H.
  - reflexivity.
  - intros e' [=].
Qed.

Lemma existsb_prints (p : Event → bool) (prints : list Event) :
  (∀ e, is_print e = true → p e = false) →
  forallb is_print prints = true → existsb p prints = false.
Proof.
  intros Hp. induction prints as [|e prints IH]; simpl; [reflexivity|].
  intros [He Hrest]%andb_prop. rewrite (Hp e He), (IH Hrest). reflexivity.
Qed.

Lemma destroy_events_quiet (id : N) (bucket key : string) (prints : list Event) :
  forallb is_print prints = true →
  existsb is_update (EvDelete id :: EvDeleteObject bucket key :: prints) = false
  ∧ existsb is_grant (EvDelete id :: EvDeleteObject bucket key :: prints) = false.
Proof.
  intros Hprints. simpl. split; apply existsb_prints; try assumption;
    intros [] He; simpl in *; congruence.
Qed.

(** C1. In [api_get_gist] the expiration test comes first, the read-count
    test second, the increment third and the download grant last.  A gist
    whose expiration is strictly earlier than [now] is answered 410 "Gist
    expired" whatever its counters are; the record is deleted, no
    [read_count] is written and no grant is requested.  A live gist (no
    expiration, or one not earlier than [now]) with an exhausted budget is
    answered 410 "Read limit exceeded", again without a write or a grant.
    Only a live gist within budget is incremented, and the provider is
    asked for the grant after the incremented row has been committed. *)
Theorem api_get_gist_checks_in_order (now : datetime) (id : N) (g : Gist.t) (w : World) :
  gists w !! id = Some g →
  Gist.gist_id g = id →
  ∃ r w' (evs : list Event),
    api_get_gist isoformat storage now id w = (r, w')
    ∧ trace w' = (trace w ++ evs)%list
    ∧ (∀ e, Gist.expiration_date g = Some e → e < now →
         r = Raise (HTTPException 410 "Gist expired")
         ∧ gists w' !! id = None
         ∧ existsb is_update evs = false
         ∧ existsb is_grant evs = false)
    ∧ ((∀ e, Gist.expiration_date g = Some e → now <= e) →
       Gist.max_reads g <= Gist.read_count g →
         r = Raise (HTTPException 410 "Read limit exceeded")
         ∧ gists w' !! id = None
         ∧ existsb is_update evs = false
         ∧ existsb is_grant evs = false)
    ∧ ((∀ e, Gist.expiration_date g = Some e → now <= e) →
       Gist.read_count g < Gist.max_reads g →
         ∃ view prints,
           r = Return view
           ∧ GistResponse.read_count view = Gist.read_count g + 1
           ∧ gists w' !! id = Some (Gist.set_read_count g (Gist.read_count g + 1))
           ∧ evs = EvUpdate (Gist.set_read_count g (Gist.read_count g + 1))
                     :: EvPresignedUrl (bucket_name storage) (uuid_str id) :: prints
           ∧ forallb is_print prints = true).
Proof.
  intros Hw Hid.
  destruct (expired g now) eqn:Hexp.
  - destruct (api_get_gist_expired isoformat storage now id g w Hw Hid Hexp)
      as (prints & Hrun & Hprints).
    destruct (destroy_events_quiet id (bucket_name storage) (uuid_str id) prints Hprints)
      as [Hupd Hgrant].
    eexists _, _, _. split; [exact Hrun|]. split; [reflexivity|]. cbn [gists].
    split; [|split].
    + intros e _ _. rewrite lookup_delete_eq. auto.
    + intros Hlive%expired_false. congruence.
    + intros Hlive%expired_false. congruence.
  - destruct (Z_lt_le_dec (Gist.read_count g) (Gist.max_reads g)) as [Hlt|Hge].
    + destruct (api_get_gist_within_budget isoformat storage now id g w Hw Hid Hexp Hlt)
        as (url & prints & Hrun & Hprints).
      eexists _, _, _. split; [exact Hrun|]. split; [reflexivity|].
      split; [|split].
      * intros e He Hpast. rewrite (expired_true g now e He Hpast) in Hexp. discriminate.
      * intros _ Hcap. lia.
      * intros _ _. eexists _, prints. cbn [gists].
        split; [reflexivity|]. split; [reflexivity|].
        split; [apply lookup_insert_eq|]. split; [reflexivity | exact Hprints].
    + destruct (api_get_gist_exhausted isoformat storage now id g w Hw Hid Hexp Hge)
        as (prints & Hrun & Hprints).
      destruct (destroy_events_quiet id (bucket_name storage) (uuid_str id) prints Hprints)
        as [Hupd Hgrant].
      eexists _, _, _. split; [exact Hrun|]. split; [reflexivity|]. cbn [gists].
      split; [|split].
      * intros e He Hpast. rewrite (expired_true g now e He Hpast) in Hexp. discriminate.
      * intros _ _. rewrite lookup_delete_eq. auto.
      * intros _ Hlt. lia.
Qed.

End ReadPath.

(** An expired gist with its whole budget left: 410, not a grant. *)
Lemma api_get_gist_checks_in_order_witness :
  fst (api_get_gist Calendar.isoformat storage_serving noon_2026 7
         (world_with (sample_gist (Some noon_2025) 0 5)))
  = Raise (HTTPException 410 "Gist expired").
Proof.
  destruct (api_get_gist_checks_in_order Calendar.isoformat storage_serving noon_2026 7 (sample_gist (Some noon_2025) 0 5)
              (world_with (sample_gist (Some noon_2025) 0 5)) eq_refl eq_refl)
    as (r & w' & evs & Hrun & _ & Hexpired & _).
  rewrite Hrun. simpl.
  apply (Hexpired noon_2025 eq_refl). reflexivity.
Defined.

(** ** The create path *)

Section CreatePath.

Variable fromisoformat : string -> option parsed_datetime.
Variable storage : Storage.

Lemma generate_presigned_post_spec (key : string) (max_size_bytes : Z) (w : World) :
  ∃ post prints,
    generate_presigned_post storage key max_size_bytes w =
      (Return post,
       {| gists := gists w;
          trace := trace w ++ EvPresignedPost (bucket_name storage) key :: prints |})
    ∧ (post = None ↔
       ∃ msg, s3_generate_presigned_post (s3_client storage) (trace w)
                (bucket_name storage) key max_size_bytes 3600 = ClientError msg).
Proof.
  unfold generate_presigned_post, bind, history, emit, log; simpl.
  destruct (s3_generate_presigned_post _ _ _ _ _ _) as [response|msg]; simpl.
  - eexists _, []. split; [reflexivity|].
    split; [discriminate | intros [? ?]; discriminate].
  - exists None, [EvPrint ("S3 Presigned Post Error: " ++ msg)].
    rewrite <- app_assoc. split; [reflexivity|]. split; eauto.
Qed.

Lemma generate_presigned_post_granted (key : string) (max_size_bytes : Z) (w : World)
    (post : PresignedPost) :
  s3_generate_presigned_post (s3_client storage) (trace w) (bucket_name storage) key
    max_size_bytes 3600 = Responded post →
  generate_presigned_post storage key max_size_bytes w =
    (Return (Some {| post_url := _replace_endpoint storage (post_url post);
                     post_fields := post_fields post |}),
     {| gists := gists w;
        trace := trace w ++ [EvPresignedPost (bucket_name storage) key] |}).
Proof.
  intros Hpost. unfold generate_presigned_post, bind, history, emit, log; simpl.
  rewrite Hpost. reflexivity.
Qed.

Lemma db_add_commit_fresh (g : Gist.t) (w : World) :
  gists w !! Gist.gist_id g = None →
  db_add_commit g w =
    (Return tt,
     {| gists := <[Gist.gist_id g := g]> (gists w); trace := trace w ++ [EvInsert g] |}).
Proof. intros Hw. unfold db_add_commit. rewrite Hw. reflexivity. Qed.

Lemma db_add_commit_taken (g : Gist.t) (w : World) :
  is_Some (gists w !! Gist.gist_id g) →
  db_add_commit g w = (Raise IntegrityError, w).
Proof. intros [g0 Hw]. unfold db_add_commit. rewrite Hw. reflexivity. Qed.

(** A falsy [expiration_date] ([None] or the empty string) is not parsed. *)
Lemma create_gist_without_expiration (uuid4 : N) (now : datetime) (meta : dict)
    (exp : option string) (cap : option Z) (w : World) :
  opt_str_truthy exp = false →
  gists w !! uuid4 = None →
  let g := Gist_new uuid4 now meta None cap in
  create_gist fromisoformat uuid4 now meta exp cap w =
    (Return g, {| gists := <[uuid4 := g]> (gists w); trace := trace w ++ [EvInsert g] |}).
Proof.
  intros Hexp Hw g. unfold create_gist. rewrite Hexp.
  unfold bind at 1, ret at 1. fold g. unfold bind.
  rewrite (db_add_commit_fresh g w Hw). reflexivity.
Qed.

(** A string [fromisoformat] refuses stops [create_gist] before the
    session is touched. *)
Lemma create_gist_unparseable (uuid4 : N) (now : datetime) (meta : dict)
    (s : string) (cap : option Z) (w : World) :
  str_truthy s = true →
  fromisoformat s = None →
  create_gist fromisoformat uuid4 now meta (Some s) cap w = (Raise ValueError, w).
Proof.
  intros Hs Hparse. unfold create_gist, opt_str_truthy. rewrite Hs.
  change (default "" (Some s)) with s. rewrite Hparse. reflexivity.
Qed.

(** What a returning [create_gist] has done. *)
Lemma create_gist_returned (uuid4 : N) (now : datetime) (meta : dict)
    (exp : option string) (cap : option Z) (w w' : World) (g : Gist.t) :
  create_gist fromisoformat uuid4 now meta exp cap w = (Return g, w') →
  gists w !! uuid4 = None
  ∧ (∃ e, g = Gist_new uuid4 now meta e cap ∧ normalizes fromisoformat exp e)
  ∧ w' = {| gists := <[uuid4 := g]> (gists w); trace := trace w ++ [EvInsert g] |}.
Proof.
  unfold create_gist. unfold bind at 1.
  set (parse := if opt_str_truthy exp then _ else _).
  destruct (parse w) as [[e|exc] w0] eqn:Hparse; [|discriminate].
  assert (w0 = w ∧ normalizes fromisoformat exp e) as [-> Hnorm].
  { subst parse. unfold normalizes. destruct (opt_str_truthy exp).
    - destruct (fromisoformat _) as [dt|]; [|discriminate].
      destruct (tzinfo dt) as [off|] eqn:Htz.
      + destruct (astimezone_utc_naive dt off) as [utc|] eqn:Hutc; [|discriminate].
        injection Hparse as <- <-. split; [reflexivity|].
        exists dt, utc. rewrite Htz. auto.
      + injection Hparse as <- <-. split; [reflexivity|].
        exists dt, (wall dt). rewrite Htz. auto.
    - injection Hparse as <- <-. auto. }
  unfold bind, db_add_commit. cbn [Gist_new Gist.gist_id].
  destruct (gists w !! uuid4) as [g0|] eqn:Hw; [discriminate|].
  unfold ret. intros [= <- <-]. split; [reflexivity|]. split; [eauto | reflexivity].
Qed.

(** What a 201 from [api_create_gist] means. *)
Lemma api_create_gist_returned (uuid4 : N) (now : datetime) (payload : GistCreate.t)
    (w w' : World) (created : GistCreateResponse.t) :
  api_create_gist fromisoformat storage uuid4 now payload w = (Return created, w') →
  GistCreateResponse.gist_id created = uuid4
  ∧ gists w !! uuid4 = None
  ∧ ∃ e, gists w' =
           <[uuid4 := Gist_new uuid4 now (GistCreate.gist_metadata payload) e
                        (GistCreate.max_reads payload)]> (gists w)
         ∧ normalizes fromisoformat (GistCreate.expiration_date payload) e.
Proof.
  unfold api_create_gist. unfold bind at 1.
  destruct (create_gist _ _ _ _ _ _ w) as [[g|exc] w1] eqn:Hcreate; [|discriminate].
  apply create_gist_returned in Hcreate as (Hfresh & (e & -> & Hnorm) & ->).
  cbn [Gist_new Gist.gist_id]. unfold bind.
  destruct (generate_presigned_post_spec (uuid_str uuid4) 10485760
              {| gists := <[uuid4 := Gist_new uuid4 now (GistCreate.gist_metadata payload) e
                                       (GistCreate.max_reads payload)]> (gists w);
                 trace := trace w ++ [EvInsert (Gist_new uuid4 now
                            (GistCreate.gist_metadata payload) e
                            (GistCreate.max_reads payload))] |})
    as (post & prints & Hpost & _).
  cbn [Gist_new] in Hpost. rewrite Hpost.
  destruct post as [post|]; [|discriminate].
  unfold ret. intros [= <- <-]. cbn. split; [reflexivity|]. split; [exact Hfresh | eauto].
Qed.

Lemma create_gist_raised (uuid4 : N) (now : datetime) (meta : dict)
    (exp : option string) (cap : option Z) (w w' : World) (exc : Exc) :
  create_gist fromisoformat uuid4 now meta exp cap w = (Raise exc, w') → w' = w.
Proof.
  unfold create_gist. unfold bind at 1.
  set (parse := if opt_str_truthy exp then _ else _).
  assert (∀ o w0, parse w = (o, w0) → w0 = w) as Hsame.
  { intros o w0. subst parse. destruct (opt_str_truthy exp).
    - destruct (fromisoformat _) as [dt|]; [|intros [= _ <-]; reflexivity].
      destruct (tzinfo dt) as [off|]; [|intros [= _ <-]; reflexivity].
      destruct (astimezone_utc_naive dt off); intros [= _ <-]; reflexivity.
    - intros [= _ <-]; reflexivity. }
  destruct (parse w) as [[e|exc0] w0]; rewrite (Hsame _ _ eq_refl).
  - unfold bind, db_add_commit. cbn [Gist_new Gist.gist_id].
    destruct (gists w !! uuid4); [intros [= _ <-]; reflexivity | discriminate].
  - intros [= _ <-]; reflexivity.
Qed.

(** Whatever [api_create_gist] answers, the table is left as it was or has
    gained the one new row under [uuid4]. *)
Lemma api_create_gist_table (uuid4 : N) (now : datetime) (payload : GistCreate.t)
    (w w' : World) (r : Outcome GistCreateResponse.t) :
  api_create_gist fromisoformat storage uuid4 now payload w = (r, w') →
  gists w' = gists w
  ∨ (gists w !! uuid4 = None
     ∧ ∃ e, gists w' =
              <[uuid4 := Gist_new uuid4 now (GistCreate.gist_metadata payload) e
                           (GistCreate.max_reads payload)]> (gists w)).
Proof.
  unfold api_create_gist. unfold bind at 1.
  destruct (create_gist _ _ _ _ _ _ w) as [[g|exc] w1] eqn:Hcreate.
  - apply create_gist_returned in Hcreate as (Hfresh & (e & -> & _) & ->).
    cbn [Gist_new Gist.gist_id]. unfold bind.
    destruct (generate_presigned_post_spec (uuid_str uuid4) 10485760
                {| gists := <[uuid4 := Gist_new uuid4 now (GistCreate.gist_metadata payload) e
                                         (GistCreate.max_reads payload)]> (gists w);
                   trace := trace w ++ [EvInsert (Gist_new uuid4 now
                              (GistCreate.gist_metadata payload) e
                              (GistCreate.max_reads payload))] |})
      as (post & prints & Hpost & _).
    cbn [Gist_new] in Hpost. rewrite Hpost.
    intros Hr. right. split; [exact Hfresh|]. exists e.
    destruct post; injection Hr as _ <-; reflexivity.
  - apply create_gist_raised in Hcreate as ->. intros [= _ <-]. left; reflexivity.
Qed.

End CreatePath.

(** ** Runs of requests *)

Section Runs.

Variable fromisoformat : string -> option parsed_datetime.
Variable isoformat : datetime -> string.
Variable storage : Storage.

Lemma primary_key_empty : primary_key empty_world.
Proof. intros id g. cbn. rewrite lookup_empty. discriminate. Qed.

Lemma primary_key_insert (g : Gist.t) (w w' : World) :
  primary_key w → gists w' = <[Gist.gist_id g := g]> (gists w) → primary_key w'.
Proof.
  intros Hpk Heq id g'. rewrite Heq.
  destruct (decide (Gist.gist_id g = id)) as [<-|Hne].
  - rewrite lookup_insert_eq. intros [= <-]. reflexivity.
  - rewrite lookup_insert_ne by assumption. apply Hpk.
Qed.

Lemma primary_key_delete (id : N) (w w' : World) :
  primary_key w → gists w' = delete id (gists w) → primary_key w'.
Proof.
  intros Hpk Heq id' g'. rewrite Heq.
  destruct (decide (id = id')) as [<-|Hne].
  - rewrite lookup_delete_eq. discriminate.
  - rewrite lookup_delete_ne by assumption. apply Hpk.
Qed.

Lemma primary_key_same (w w' : World) :
  primary_key w → gists w' = gists w → primary_key w'.
Proof. intros Hpk Heq id g. rewrite Heq. apply Hpk. Qed.

(** The three ways [api_get_gist] can go, with the table it leaves. *)
Lemma api_get_gist_cases (now : datetime) (id : N) (w : World) :
  primary_key w →
  (gists w !! id = None
   ∧ api_get_gist isoformat storage now id w =
       (Raise (HTTPException 404 "Gist not found"), w))
  ∨ (∃ g detail w',
       gists w !! id = Some g
       ∧ (expired g now = true ∨ Gist.max_reads g <= Gist.read_count g)
       ∧ api_get_gist isoformat storage now id w =
           (Raise (HTTPException 410 detail), w')
       ∧ gists w' = delete id (gists w))
  ∨ (∃ g url w',
       gists w !! id = Some g
       ∧ expired g now = false
       ∧ Gist.read_count g < Gist.max_reads g
       ∧ api_get_gist isoformat storage now id w =
           (Return (view_of isoformat url
                      (Gist.set_read_count g (Gist.read_count g + 1))), w')
       ∧ gists w' = <[id := Gist.set_read_count g (Gist.read_count g + 1)]> (gists w)).
Proof.
  intros Hpk. destruct (gists w !! id) as [g|] eqn:Hw.
  - pose proof (Hpk id g Hw) as Hid. right.
    destruct (expired g now) eqn:Hexp.
    + destruct (api_get_gist_expired isoformat storage now id g w Hw Hid Hexp)
        as (prints & Hrun & _).
      left. eexists g, _, _. split; [reflexivity|]. split; [left; exact Hexp|].
      split; [exact Hrun | reflexivity].
    + destruct (Z_lt_le_dec (Gist.read_count g) (Gist.max_reads g)) as [Hlt|Hge].
      * destruct (api_get_gist_within_budget isoformat storage now id g w Hw Hid Hexp Hlt)
          as (url & prints & Hrun & _).
        right. eexists g, url, _. split; [reflexivity|]. split; [exact Hexp|].
        split; [exact Hlt|]. split; [exact Hrun | reflexivity].
      * destruct (api_get_gist_exhausted isoformat storage now id g w Hw Hid Hexp Hge)
          as (prints & Hrun & _).
        left. eexists g, _, _. split; [reflexivity|]. split; [right; exact Hge|].
        split; [exact Hrun | reflexivity].
  - left. split; [reflexivity|]. apply api_get_gist_missing, Hw.
Qed.

(** The two ways [api_delete_gist] can go. *)
Lemma api_delete_gist_cases (id : N) (w : World) :
  primary_key w →
  (gists w !! id = None
   ∧ api_delete_gist storage id w = (Raise (HTTPException 404 "Gist not found"), w))
  ∨ (∃ g w',
       gists w !! id = Some g
       ∧ api_delete_gist storage id w = (Return tt, w')
       ∧ gists w' = delete id (gists w)).
Proof.
  intros Hpk. destruct (gists w !! id) as [g|] eqn:Hw.
  - destruct (api_delete_gist_found storage id g w Hw (Hpk id g Hw)) as (prints & Hrun & _).
    right. eexists g, _. split; [reflexivity|]. split; [exact Hrun | reflexivity].
  - left. split; [reflexivity|]. apply api_delete_gist_missing, Hw.
Qed.

Lemma handle_primary_key (now : datetime) (req : Request) (w w' : World) (r : Response) :
  primary_key w →
  handle fromisoformat isoformat storage now req w = (r, w') →
  primary_key w'.
Proof.
  intros Hpk. destruct req as [uuid4 payload|id|id]; cbn [handle].
  - destruct (api_create_gist _ _ _ _ _ w) as [o w1] eqn:Hrun. intros [= _ <-].
    apply api_create_gist_table in Hrun as [Hsame|(_ & e & Hins)].
    + eapply primary_key_same; eassumption.
    + eapply (primary_key_insert (Gist_new uuid4 now _ e _)); eassumption.
  - destruct (api_get_gist_cases now id w Hpk)
      as [(_ & Hrun)|[(g & d & w1 & _ & _ & Hrun & Hdel)|(g & url & w1 & Hw & _ & _ & Hrun & Hins)]];
      rewrite Hrun; intros [= _ <-].
    + assumption.
    + eapply primary_key_delete; eassumption.
    + eapply (primary_key_insert (Gist.set_read_count g _)); [eassumption|].
      cbn [Gist.set_read_count Gist.gist_id]. rewrite (Hpk id g Hw). exact Hins.
  - destruct (api_delete_gist_cases id w Hpk) as [(_ & Hrun)|(g & w1 & _ & Hrun & Hdel)];
      rewrite Hrun; intros [= _ <-].
    + assumption.
    + eapply primary_key_delete; eassumption.
Qed.

Lemma serve_primary_key (reqs : list (datetime * Request)) :
  ∀ (w w' : World) (rs : list Response),
    primary_key w →
    serve fromisoformat isoformat storage reqs w = (rs, w') →
    primary_key w'.
Proof.
  induction reqs as [|[now req] reqs IH]; intros w w' rs Hpk; cbn [serve].
  - intros [= _ <-]. exact Hpk.
  - destruct (handle _ _ _ now req w) as [r w1] eqn:Hstep.
    destruct (serve _ _ _ reqs w1) as [rs' w2] eqn:Hrest. intros [= _ <-].
    eapply IH; [|exact Hrest]. eapply handle_primary_key; eassumption.
Qed.

Lemma serve_app (reqs1 reqs2 : list (datetime * Request)) :
  ∀ w : World,
    serve fromisoformat isoformat storage (reqs1 ++ reqs2) w =
      let (rs1, w1) := serve fromisoformat isoformat storage reqs1 w in
      let (rs2, w2) := serve fromisoformat isoformat storage reqs2 w1 in
      ((rs1 ++ rs2)%list, w2).
Proof.
  induction reqs1 as [|[now req] reqs1 IH]; intros w; cbn [serve app].
  - destruct (serve _ _ _ reqs2 w); reflexivity.
  - destruct (handle _ _ _ now req w) as [r w0]. rewrite IH.
    destruct (serve _ _ _ reqs1 w0) as [rs1 w1].
    destruct (serve _ _ _ reqs2 w1) as [rs2 w2]. reflexivity.
Qed.

Lemma set_read_count_same (g : Gist.t) : Gist.set_read_count g (Gist.read_count g) = g.
Proof. destruct g; reflexivity. Qed.

(** Reads of a gist that never expires, as long as the budget lasts: the
    [i]-th of them (from 0) shows the row with [read_count] raised by
    [i + 1], and the table holds the count of the last one. *)
Lemma serve_reads_within_budget (instants : list datetime) :
  ∀ (w : World) (g : Gist.t) (id : N),
    primary_key w →
    gists w !! id = Some g →
    Gist.expiration_date g = None →
    Gist.read_count g + Z.of_nat (length instants) <= Gist.max_reads g →
    ∃ rs w',
      serve fromisoformat isoformat storage (reads id instants) w = (rs, w')
      ∧ length rs = length instants
      ∧ (∀ i, (i < length instants)%nat →
           ∃ url, rs !! i =
             Some (Fetched (Return (view_of isoformat url
                     (Gist.set_read_count g (Gist.read_count g + Z.of_nat i + 1))))))
      ∧ gists w' =
          <[id := Gist.set_read_count g (Gist.read_count g + Z.of_nat (length instants))]>
            (gists w).
Proof.
  induction instants as [|now instants IH]; intros w g id Hpk Hw Hnever Hcap.
  - exists [], w. cbn [reads map serve length]. split; [reflexivity|]. split; [reflexivity|].
    split; [intros i Hi; inversion Hi|].
    rewrite Z.add_0_r, set_read_count_same. symmetry. apply insert_id, Hw.
  - cbn [length] in Hcap. cbn [reads map serve handle]. fold (reads id instants).
    assert (expired g now = false) as Hexp by (unfold expired; rewrite Hnever; reflexivity).
    assert (Gist.read_count g < Gist.max_reads g) as Hlt by lia.
    destruct (api_get_gist_within_budget isoformat storage now id g w Hw (Hpk id g Hw) Hexp Hlt)
      as (url & prints & Hrun & _).
    rewrite Hrun.
    set (g1 := Gist.set_read_count g (Gist.read_count g + 1)) in *.
    set (w1 := {| gists := <[id := g1]> (gists w); trace := _ |}).
    assert (primary_key w1) as Hpk1.
    { apply (primary_key_insert g1 w); [exact Hpk|].
      subst g1 w1. cbn [gists Gist.set_read_count Gist.gist_id].
      rewrite (Hpk id g Hw). reflexivity. }
    assert (gists w1 !! id = Some g1) as Hw1 by (subst w1; cbn [gists]; apply lookup_insert_eq).
    destruct (IH w1 g1 id Hpk1 Hw1 Hnever) as (rs & w' & Hserve & Hlen & Hviews & Htable).
    { subst g1. cbn [Gist.set_read_count Gist.read_count Gist.max_reads]. lia. }
    rewrite Hserve. eexists _, w'. split; [reflexivity|].
    split; [cbn [length]; rewrite Hlen; reflexivity|]. split.
    + intros [|i] Hi.
      * exists url. cbn. rewrite Z.add_0_r. reflexivity.
      * destruct (Hviews i) as (url' & Hi'); [cbn [length] in Hi; lia|].
        exists url'.
        change ((Fetched (Return (view_of isoformat url g1)) :: rs) !! S i) with (rs !! i).
        rewrite Hi'. subst g1.
        cbn [Gist.set_read_count Gist.read_count Gist.gist_id Gist.gist_metadata
             Gist.created_at Gist.expiration_date Gist.max_reads Gist.version_history].
        do 5 f_equal. lia.
    + rewrite Htable. subst w1 g1. cbn [gists]. rewrite insert_insert_eq.
      cbn [Gist.set_read_count Gist.read_count Gist.gist_id Gist.gist_metadata
           Gist.created_at Gist.expiration_date Gist.max_reads Gist.version_history length].
      do 2 f_equal. lia.
Qed.

(** What one request does to the row of [id], unless it creates it. *)
Lemma handle_lookup (id : N) (now : datetime) (req : Request) (w w' : World) (r : Response) :
  primary_key w →
  draws req ≠ Some id →
  handle fromisoformat isoformat storage now req w = (r, w') →
  gists w' !! id = gists w !! id
  ∨ gists w' !! id = None
  ∨ (∃ g, gists w !! id = Some g
          ∧ Gist.read_count g < Gist.max_reads g
          ∧ gists w' !! id = Some (Gist.set_read_count g (Gist.read_count g + 1))).
Proof.
  intros Hpk Hdraw. destruct req as [uuid4 payload|id'|id']; cbn [handle].
  - destruct (api_create_gist _ _ _ _ _ w) as [o w1] eqn:Hrun. intros [= _ <-].
    apply api_create_gist_table in Hrun as [Hsame|(_ & e & Hins)]; left.
    + rewrite Hsame. reflexivity.
    + rewrite Hins. apply lookup_insert_ne. cbn in Hdraw. congruence.
  - destruct (api_get_gist_cases now id' w Hpk)
      as [(_ & Hrun)|[(g & d & w1 & _ & _ & Hrun & Hdel)|(g & url & w1 & Hw & _ & Hlt & Hrun & Hins)]];
      rewrite Hrun; intros [= _ <-].
    + left; reflexivity.
    + rewrite Hdel. destruct (decide (id' = id)) as [->|Hne].
      * right; left. apply lookup_delete_eq.
      * left. apply lookup_delete_ne, Hne.
    + rewrite Hins. destruct (decide (id' = id)) as [->|Hne].
      * right; right. exists g. split; [exact Hw|]. split; [exact Hlt|]. apply lookup_insert_eq.
      * left. apply lookup_insert_ne, Hne.
  - destruct (api_delete_gist_cases id' w Hpk) as [(_ & Hrun)|(g & w1 & _ & Hrun & Hdel)];
      rewrite Hrun; intros [= _ <-].
    + left; reflexivity.
    + rewrite Hdel. destruct (decide (id' = id)) as [->|Hne].
      * right; left. apply lookup_delete_eq.
      * left. apply lookup_delete_ne, Hne.
Qed.

Lemma handle_tracks (id : N) (meta : dict) (cap : Z) (now : datetime) (req : Request)
    (w w' : World) (r : Response) :
  primary_key w →
  tracks id meta cap w →
  draws req ≠ Some id →
  handle fromisoformat isoformat storage now req w = (r, w') →
  tracks id meta cap w'.
Proof.
  intros Hpk Htr Hdraw Hstep g'.
  destruct (handle_lookup id now req w w' r Hpk Hdraw Hstep)
    as [->|[->|(g & Hw & Hlt & ->)]].
  - apply Htr.
  - discriminate.
  - intros [= <-]. destruct (Htr g Hw) as (Hmeta & Hmax & Hrc).
    cbn [Gist.set_read_count Gist.gist_metadata Gist.max_reads Gist.read_count].
    split; [exact Hmeta|]. split; [exact Hmax|]. lia.
Qed.

Lemma handle_absent (id : N) (now : datetime) (req : Request) (w w' : World) (r : Response) :
  primary_key w →
  gists w !! id = None →
  draws req ≠ Some id →
  handle fromisoformat isoformat storage now req w = (r, w') →
  gists w' !! id = None.
Proof.
  intros Hpk Hw Hdraw Hstep.
  destruct (handle_lookup id now req w w' r Hpk Hdraw Hstep)
    as [->|[->|(g & Hg & _)]]; [exact Hw | reflexivity | congruence].
Qed.

Lemma never_redrawn_cons (id : N) (now : datetime) (req : Request)
    (reqs : list (datetime * Request)) :
  never_redrawn id ((now, req) :: reqs) →
  draws req ≠ Some id ∧ never_redrawn id reqs.
Proof.
  intros Hnr. apply Forall_cons in Hnr. exact Hnr.
Qed.

(** A successful read of a tracked gist shows the tracked document and
    cap, and a [read_count] between 1 and the cap. *)
Lemma serve_tracked (id : N) (meta : dict) (cap : Z) (reqs : list (datetime * Request)) :
  ∀ (w w' : World) (rs : list Response),
    primary_key w →
    tracks id meta cap w →
    never_redrawn id reqs →
    serve fromisoformat isoformat storage reqs w = (rs, w') →
    tracks id meta cap w'
    ∧ ∀ i now view,
        reqs !! i = Some (now, GET_gist id) →
        rs !! i = Some (Fetched (Return view)) →
        GistResponse.gist_id view = id
        ∧ GistResponse.gist_metadata view = meta
        ∧ GistResponse.max_reads view = cap
        ∧ 1 <= GistResponse.read_count view <= cap.
Proof.
  induction reqs as [|[now req] reqs IH]; intros w w' rs Hpk Htr Hnr; cbn [serve].
  - intros [= <- <-]. split; [exact Htr|]. intros i now view Hi. discriminate Hi.
  - apply never_redrawn_cons in Hnr as [Hdraw Hnr].
    destruct (handle _ _ _ now req w) as [r w1] eqn:Hstep.
    destruct (serve _ _ _ reqs w1) as [rs' w2] eqn:Hrest. intros [= <- <-].
    pose proof (handle_primary_key now req w w1 r Hpk Hstep) as Hpk1.
    pose proof (handle_tracks id meta cap now req w w1 r Hpk Htr Hdraw Hstep) as Htr1.
    destruct (IH w1 w2 rs' Hpk1 Htr1 Hnr Hrest) as [Htr2 Hviews].
    split; [exact Htr2|]. intros [|i] now' view.
    + intros [= -> ->] [= ->]. cbn [handle] in Hstep.
      destruct (api_get_gist_cases now' id w Hpk)
        as [(_ & Hrun)|[(g & d & w0 & _ & _ & Hrun & _)|(g & url & w0 & Hw & _ & Hlt & Hrun & _)]];
        rewrite Hrun in Hstep; try discriminate Hstep.
      injection Hstep as <- _.
      destruct (Htr g Hw) as (Hmeta & Hmax & Hrc).
      cbn [view_of Gist.set_read_count GistResponse.gist_id GistResponse.gist_metadata
           GistResponse.max_reads GistResponse.read_count Gist.gist_id Gist.gist_metadata
           Gist.max_reads Gist.read_count].
      split; [apply Hpk, Hw|]. split; [exact Hmeta|]. split; [exact Hmax|]. lia.
    + apply Hviews.
Qed.

(** Once the row of [id] is absent it stays absent, and reads and deletes
    of [id] are answered 404. *)
Lemma serve_absent (id : N) (reqs : list (datetime * Request)) :
  ∀ (w w' : World) (rs : list Response),
    primary_key w →
    gists w !! id = None →
    never_redrawn id reqs →
    serve fromisoformat isoformat storage reqs w = (rs, w') →
    gists w' !! id = None
    ∧ ∀ i now,
        (reqs !! i = Some (now, GET_gist id) →
         rs !! i = Some (Fetched (Raise (HTTPException 404 "Gist not found"))))
        ∧ (reqs !! i = Some (now, DELETE_gist id) →
           rs !! i = Some (Deleted (Raise (HTTPException 404 "Gist not found")))).
Proof.
  induction reqs as [|[now req] reqs IH]; intros w w' rs Hpk Hw Hnr; cbn [serve].
  - intros [= <- <-]. split; [exact Hw|]. intros i now. split; discriminate.
  - apply never_redrawn_cons in Hnr as [Hdraw Hnr].
    destruct (handle _ _ _ now req w) as [r w1] eqn:Hstep.
    destruct (serve _ _ _ reqs w1) as [rs' w2] eqn:Hrest. intros [= <- <-].
    pose proof (handle_primary_key now req w w1 r Hpk Hstep) as Hpk1.
    pose proof (handle_absent id now req w w1 r Hpk Hw Hdraw Hstep) as Hw1.
    destruct (IH w1 w2 rs' Hpk1 Hw1 Hnr Hrest) as [Hw2 Hrs].
    split; [exact Hw2|]. intros [|i] now'.
    + split; intros [= -> ->]; cbn [handle] in Hstep.
      * rewrite (api_get_gist_missing isoformat storage now' id w Hw) in Hstep.
        injection Hstep as <- _. reflexivity.
      * rewrite (api_delete_gist_missing storage id w Hw) in Hstep.
        injection Hstep as <- _. reflexivity.
    + apply Hrs.
Qed.

(** After a 201 the new row is in the table, under the returned id. *)
Lemma api_create_gist_row (uuid4 : N) (now : datetime) (payload : GistCreate.t)
    (w w1 : World) (created : GistCreateResponse.t) :
  primary_key w →
  api_create_gist fromisoformat storage uuid4 now payload w = (Return created, w1) →
  ∃ e,
    GistCreateResponse.gist_id created = uuid4
    ∧ primary_key w1
    ∧ gists w1 !! uuid4 =
        Some (Gist_new uuid4 now (GistCreate.gist_metadata payload) e
                (GistCreate.max_reads payload))
    ∧ normalizes fromisoformat (GistCreate.expiration_date payload) e.
Proof.
  intros Hpk Hrun.
  apply api_create_gist_returned in Hrun as (Hid & _ & e & Htable & Hnorm).
  exists e. split; [exact Hid|]. split; [|split; [|exact Hnorm]].
  - eapply (primary_key_insert (Gist_new uuid4 now _ e _)); [exact Hpk | exact Htable].
  - rewrite Htable. apply lookup_insert_eq.
Qed.

(** C2. A gist created without an expiration and with [max_reads = 5] is
    read six times in a row, at any instants.  The first five reads answer
    200 and show [read_count] 1, 2, 3, 4, 5; after the first [k] of them the
    stored row holds [read_count = k]; the sixth read answers 410 and the
    row is gone. *)
Theorem five_reads_then_gone (uuid4 : N) (now : datetime) (payload : GistCreate.t)
    (created : GistCreateResponse.t) (w w1 : World) (instants : list datetime) :
  primary_key w →
  GistCreate.max_reads payload = Some 5 →
  opt_str_truthy (GistCreate.expiration_date payload) = false →
  api_create_gist fromisoformat storage uuid4 now payload w = (Return created, w1) →
  length instants = 6%nat →
  ∃ rs w2,
    serve fromisoformat isoformat storage
      (reads (GistCreateResponse.gist_id created) instants) w1 = (rs, w2)
    ∧ map response_status rs = [200; 200; 200; 200; 200; 410]
    ∧ map read_count_seen rs = [Some 1; Some 2; Some 3; Some 4; Some 5; None]
    ∧ (∀ k, (k <= 5)%nat →
         ∃ g, gists (snd (serve fromisoformat isoformat storage
                            (reads (GistCreateResponse.gist_id created) (take k instants)) w1))
                !! GistCreateResponse.gist_id created = Some g
              ∧ Gist.read_count g = Z.of_nat k)
    ∧ gists w2 !! GistCreateResponse.gist_id created = None.
Proof.
  intros Hpk Hcap Hfalsy Hcreate Hlen.
  destruct (api_create_gist_row uuid4 now payload w w1 created Hpk Hcreate)
    as (e & -> & Hpk1 & Hrow & He).
  unfold normalizes in He. rewrite Hfalsy in He. rewrite He, Hcap in Hrow. clear He e.
  set (g0 := Gist_new uuid4 now (GistCreate.gist_metadata payload) None (Some 5)) in *.
  assert (∀ l : list datetime, (length l <= 5)%nat →
            ∃ rs w', serve fromisoformat isoformat storage (reads uuid4 l) w1 = (rs, w')
              ∧ length rs = length l
              ∧ (∀ i, (i < length l)%nat → ∃ url, rs !! i =
                   Some (Fetched (Return (view_of isoformat url
                           (Gist.set_read_count g0 (Z.of_nat i + 1))))))
              ∧ gists w' = <[uuid4 := Gist.set_read_count g0 (Z.of_nat (length l))]> (gists w1))
    as Hbudget.
  { intros l Hl.
    apply (serve_reads_within_budget l w1 g0 uuid4 Hpk1 Hrow eq_refl).
    subst g0; cbn; lia. }
  destruct instants as [|t1 [|t2 [|t3 [|t4 [|t5 [|t6 [|]]]]]]]; try discriminate Hlen.
  change (reads uuid4 [t1; t2; t3; t4; t5; t6])
    with (reads uuid4 [t1; t2; t3; t4; t5] ++ reads uuid4 [t6])%list.
  rewrite serve_app.
  destruct (Hbudget [t1; t2; t3; t4; t5]) as (rs & w5 & Hserve & Hrs & Hviews & Htable);
    [cbn; lia|].
  rewrite Hserve.
  destruct rs as [|r1 [|r2 [|r3 [|r4 [|r5 [|]]]]]]; try discriminate Hrs.
  destruct (Hviews 0%nat) as (u1 & [= ->]); [cbn; lia|].
  destruct (Hviews 1%nat) as (u2 & [= ->]); [cbn; lia|].
  destruct (Hviews 2%nat) as (u3 & [= ->]); [cbn; lia|].
  destruct (Hviews 3%nat) as (u4 & [= ->]); [cbn; lia|].
  destruct (Hviews 4%nat) as (u5 & [= ->]); [cbn; lia|].
  assert (primary_key w5) as Hpk5 by (eapply serve_primary_key; [exact Hpk1 | exact Hserve]).
  assert (gists w5 !! uuid4 = Some (Gist.set_read_count g0 5)) as Hrow5
    by (rewrite Htable; apply lookup_insert_eq).
  destruct (api_get_gist_exhausted isoformat storage t6 uuid4 _ w5 Hrow5 eq_refl)
    as (prints & Hlast & _); [reflexivity | cbn; lia |].
  cbn [reads map serve handle]. rewrite Hlast.
  eexists _, _. split; [reflexivity|]. split; [reflexivity|]. split; [reflexivity|].
  split; [|cbn [gists]; apply lookup_delete_eq].
  intros k Hk.
  destruct (Hbudget (take k [t1; t2; t3; t4; t5; t6])) as (rs' & w' & Hserve' & _ & _ & Htable').
  { rewrite length_take. lia. }
  rewrite Hserve'. cbn [snd]. rewrite Htable', lookup_insert_eq.
  eexists. split; [reflexivity|]. cbn [Gist.set_read_count Gist.read_count].
  rewrite length_take. cbn [length]. lia.
Qed.

Lemma created_gist_tracked (uuid4 : N) (now : datetime) (payload : GistCreate.t)
    (w w1 : World) (created : GistCreateResponse.t) :
  primary_key w →
  api_create_gist fromisoformat storage uuid4 now payload w = (Return created, w1) →
  GistCreateResponse.gist_id created = uuid4
  ∧ primary_key w1
  ∧ tracks uuid4 (GistCreate.gist_metadata payload)
      (default 100 (GistCreate.max_reads payload)) w1
  ∧ ∃ g0, gists w1 !! uuid4 = Some g0
          ∧ Gist.gist_metadata g0 = GistCreate.gist_metadata payload
          ∧ Gist.read_count g0 = 0
          ∧ Gist.max_reads g0 = default 100 (GistCreate.max_reads payload).
Proof.
  intros Hpk Hrun.
  destruct (api_create_gist_row uuid4 now payload w w1 created Hpk Hrun)
    as (e & Hid & Hpk1 & Hrow & _).
  split; [exact Hid|]. split; [exact Hpk1|]. split.
  - intros g. rewrite Hrow. intros [= <-]. cbn. repeat split; lia.
  - eexists. split; [exact Hrow|]. cbn. auto.
Qed.

(** C3. Take a gist from the 201 that created it, with [read_count = 0],
    through any sequence of requests.  Every successful read of it shows a
    [read_count] of at least 1 and at most the [max_reads] it was created
    with.  And whenever the stored [read_count] has reached that cap, the
    next read does not count further: it answers 410 and deletes the
    row. *)
Theorem read_count_never_exceeds_max_reads (uuid4 : N) (now : datetime)
    (payload : GistCreate.t) (created : GistCreateResponse.t) (w w1 w2 : World)
    (reqs : list (datetime * Request)) (rs : list Response) :
  primary_key w →
  api_create_gist fromisoformat storage uuid4 now payload w = (Return created, w1) →
  never_redrawn (GistCreateResponse.gist_id created) reqs →
  serve fromisoformat isoformat storage reqs w1 = (rs, w2) →
  (∃ g0, gists w1 !! GistCreateResponse.gist_id created = Some g0
         ∧ Gist.read_count g0 = 0
         ∧ Gist.max_reads g0 = default 100 (GistCreate.max_reads payload))
  ∧ (∀ i t view,
       reqs !! i = Some (t, GET_gist (GistCreateResponse.gist_id created)) →
       rs !! i = Some (Fetched (Return view)) →
       GistResponse.max_reads view = default 100 (GistCreate.max_reads payload)
       ∧ 1 <= GistResponse.read_count view <= GistResponse.max_reads view)
  ∧ (∀ t g,
       gists w2 !! GistCreateResponse.gist_id created = Some g →
       default 100 (GistCreate.max_reads payload) <= Gist.read_count g →
       ∃ detail w3,
         api_get_gist isoformat storage t (GistCreateResponse.gist_id created) w2 =
           (Raise (HTTPException 410 detail), w3)
         ∧ gists w3 !! GistCreateResponse.gist_id created = None).
Proof.
  intros Hpk Hcreate Hnr Hserve.
  destruct (created_gist_tracked uuid4 now payload w w1 created Hpk Hcreate)
    as (Hid & Hpk1 & Htr1 & g0 & Hrow & _ & Hrc0 & Hmax0).
  rewrite Hid in *.
  destruct (serve_tracked uuid4 _ _ reqs w1 w2 rs Hpk1 Htr1 Hnr Hserve) as [Htr2 Hviews].
  split; [exists g0; auto|]. split.
  - intros i t view Hreq Hres.
    destruct (Hviews i t view Hreq Hres) as (_ & _ & Hmax & Hrc). rewrite Hmax. auto.
  - intros t g Hw2 Hcap.
    pose proof (serve_primary_key reqs w1 w2 rs Hpk1 Hserve) as Hpk2.
    destruct (Htr2 g Hw2) as (_ & Hmax & _).
    destruct (api_get_gist_cases t uuid4 w2 Hpk2)
      as [(Hnone & _)|[(g' & d & w3 & _ & _ & Hrun & Hdel)|(g' & url & w3 & Hw & _ & Hlt & _)]].
    + congruence.
    + exists d, w3. split; [exact Hrun|]. rewrite Hdel. apply lookup_delete_eq.
    + assert (g' = g) as -> by congruence. lia.
Qed.

(** C6. A gist is destroyed by a DELETE answered 204 or by a read answered
    410.  From then on its row is absent, and in any later sequence of
    requests every read and every delete of that id is answered 404; the
    row is still absent at the end. *)
Theorem destroyed_gists_stay_destroyed (id : N) (now : datetime) (w w1 w2 : World)
    (reqs : list (datetime * Request)) (rs : list Response) :
  primary_key w →
  (api_delete_gist storage id w = (Return tt, w1)
   ∨ ∃ detail, api_get_gist isoformat storage now id w =
                 (Raise (HTTPException 410 detail), w1)) →
  never_redrawn id reqs →
  serve fromisoformat isoformat storage reqs w1 = (rs, w2) →
  gists w1 !! id = None
  ∧ gists w2 !! id = None
  ∧ ∀ i t,
      (reqs !! i = Some (t, GET_gist id) →
       rs !! i = Some (Fetched (Raise (HTTPException 404 "Gist not found"))))
      ∧ (reqs !! i = Some (t, DELETE_gist id) →
         rs !! i = Some (Deleted (Raise (HTTPException 404 "Gist not found")))).
Proof.
  intros Hpk Hdestroyed Hnr Hserve.
  assert (gists w1 = delete id (gists w)) as Hdel.
  { destruct Hdestroyed as [Hrun|[detail Hrun]].
    - destruct (api_delete_gist_cases id w Hpk) as [(_ & Hrun')|(g & w' & _ & Hrun' & Hdel)];
        rewrite Hrun' in Hrun; [discriminate|].
      injection Hrun as <-. exact Hdel.
    - destruct (api_get_gist_cases now id w Hpk)
        as [(_ & Hrun')|[(g & d & w' & _ & _ & Hrun' & Hdel)|(g & url & w' & _ & _ & _ & Hrun' & _)]];
        rewrite Hrun' in Hrun; try discriminate.
      injection Hrun as _ <-. exact Hdel. }
  assert (gists w1 !! id = None) as Hgone by (rewrite Hdel; apply lookup_delete_eq).
  pose proof (primary_key_delete id w w1 Hpk Hdel) as Hpk1.
  destruct (serve_absent id reqs w1 w2 rs Hpk1 Hgone Hnr Hserve) as [Hw2 Hrs].
  auto.
Qed.

(** C8. The document given at creation is stored as it is, and every
    successful read of the gist, anywhere in any later sequence of
    requests, returns that same document. *)
Theorem metadata_round_trip (uuid4 : N) (now : datetime) (payload : GistCreate.t)
    (created : GistCreateResponse.t) (w w1 w2 : World)
    (reqs : list (datetime * Request)) (rs : list Response) :
  primary_key w →
  api_create_gist fromisoformat storage uuid4 now payload w = (Return created, w1) →
  never_redrawn (GistCreateResponse.gist_id created) reqs →
  serve fromisoformat isoformat storage reqs w1 = (rs, w2) →
  (∃ g0, gists w1 !! GistCreateResponse.gist_id created = Some g0
         ∧ Gist.gist_metadata g0 = GistCreate.gist_metadata payload)
  ∧ ∀ i t view,
      reqs !! i = Some (t, GET_gist (GistCreateResponse.gist_id created)) →
      rs !! i = Some (Fetched (Return view)) →
      GistResponse.gist_metadata view = GistCreate.gist_metadata payload.
Proof.
  intros Hpk Hcreate Hnr Hserve.
  destruct (created_gist_tracked uuid4 now payload w w1 created Hpk Hcreate)
    as (Hid & Hpk1 & Htr1 & g0 & Hrow & Hmeta0 & _).
  rewrite Hid in *.
  destruct (serve_tracked uuid4 _ _ reqs w1 w2 rs Hpk1 Htr1 Hnr Hserve) as [_ Hviews].
  split; [exists g0; auto|].
  intros i t view Hreq Hres. apply (Hviews i t view Hreq Hres).
Qed.

Lemma same_but_read_count_refl (g : Gist.t) : same_but_read_count g g.
Proof. repeat split. Qed.

Lemma same_but_read_count_set (g : Gist.t) (n : Z) :
  same_but_read_count g (Gist.set_read_count g n).
Proof. repeat split. Qed.

(** C10. A read answered 200 changes, in the whole table, the [read_count]
    of its own row alone, by one: [gist_id], [gist_metadata], [created_at],
    [expiration_date], [max_reads] and [version_history] of that row, and
    all other rows, are as before.  And no read, whatever it answers,
    changes those six columns: every row left in the table after a read
    was there before with the same values in them. *)
Theorem read_changes_only_read_count (now : datetime) (id : N) (w w' : World)
    (r : Outcome GistResponse.t) :
  primary_key w →
  api_get_gist isoformat storage now id w = (r, w') →
  (∀ view, r = Return view →
     ∃ g g',
       gists w !! id = Some g
       ∧ gists w' !! id = Some g'
       ∧ Gist.read_count g' = Gist.read_count g + 1
       ∧ same_but_read_count g g'
       ∧ ∀ id', id' ≠ id → gists w' !! id' = gists w !! id')
  ∧ (∀ id' g',
       gists w' !! id' = Some g' →
       ∃ g, gists w !! id' = Some g ∧ same_but_read_count g g').
Proof.
  intros Hpk Hrun.
  destruct (api_get_gist_cases now id w Hpk)
    as [(_ & Hrun')|[(g & d & w0 & _ & _ & Hrun' & Hdel)|(g & url & w0 & Hw & _ & _ & Hrun' & Hins)]];
    rewrite Hrun' in Hrun; injection Hrun as <- <-.
  - split; [discriminate|]. intros id' g' Hrow. exists g'.
    split; [exact Hrow | apply same_but_read_count_refl].
  - split; [discriminate|]. intros id' g'. rewrite Hdel.
    intros [_ Hrow]%lookup_delete_Some. exists g'.
    split; [exact Hrow | apply same_but_read_count_refl].
  - split.
    + intros view _. exists g, (Gist.set_read_count g (Gist.read_count g + 1)).
      split; [exact Hw|]. split; [rewrite Hins; apply lookup_insert_eq|].
      split; [reflexivity|]. split; [apply same_but_read_count_set|].
      intros id' Hne. rewrite Hins. apply lookup_insert_ne. congruence.
    + intros id' g'. rewrite Hins. destruct (decide (id = id')) as [<-|Hne].
      * rewrite lookup_insert_eq. intros [= <-]. exists g.
        split; [exact Hw | apply same_but_read_count_set].
      * rewrite lookup_insert_ne by assumption. intros Hrow. exists g'.
        split; [exact Hrow | apply same_but_read_count_refl].
Qed.

End Runs.

(** ** Deleting *)

Section DeletePath.

Variable storage : AnyException.Storage.

Lemma any_exception_api_delete_gist_missing (id : N) (w : World) :
  gists w !! id = None →
  AnyException.api_delete_gist storage id w
  = (Raise (HTTPException 404 "Gist not found"), w).
Proof.
  intros Hw.
  unfold AnyException.api_delete_gist, AnyException.delete_gist, bind, select_gist.
  rewrite Hw. reflexivity.
Qed.



End DeletePath.

(** The model whose client raises [ClientError] or nothing is the delete
    path above, run on such clients. *)
Lemma api_delete_gist_any_exception (storage : Storage) (id : N) (w : World) :
  AnyException.api_delete_gist (any_exception_storage storage) id w
  = api_delete_gist storage id w.
Proof.
  unfold AnyException.api_delete_gist, api_delete_gist,
    AnyException.delete_gist, delete_gist, bind at 1 2 5 6, select_gist.
  destruct (gists w !! id) as [g|]; [|reflexivity].
  unfold AnyException.storage_delete, storage_delete, any_exception_storage,
    bind, history, emit, ret, raise, db_delete_commit, log, set_gists.
  cbn [gists trace AnyException.bucket_name AnyException.s3_delete_object].
  destruct (s3_delete_object (s3_client storage) _ _ _) as [response|e]; reflexivity.
Qed.

(** ** What create checks, and what read does when the grant fails *)

Section Validation.

Variable fromisoformat : string -> option parsed_datetime.
Variable isoformat : datetime -> string.
Variable storage : Storage.

(** A create without expiration, under a fresh id, with the provider
    minting the upload grant. *)
Lemma api_create_gist_accepted (uuid4 : N) (now : datetime) (payload : GistCreate.t)
    (w : World) (post : PresignedPost) :
  opt_str_truthy (GistCreate.expiration_date payload) = false →
  gists w !! uuid4 = None →
  s3_generate_presigned_post (s3_client storage)
    (trace w ++ [EvInsert (Gist_new uuid4 now (GistCreate.gist_metadata payload) None
                             (GistCreate.max_reads payload))])
    (bucket_name storage) (uuid_str uuid4) 10485760 3600 = Responded post →
  ∃ created w1,
    api_create_gist fromisoformat storage uuid4 now payload w = (Return created, w1)
    ∧ GistCreateResponse.gist_id created = uuid4
    ∧ gists w1 !! uuid4 =
        Some (Gist_new uuid4 now (GistCreate.gist_metadata payload) None
                (GistCreate.max_reads payload)).
Proof.
  intros Hfalsy Hfresh Hpost.
  unfold api_create_gist. unfold bind at 1.
  rewrite (create_gist_without_expiration fromisoformat uuid4 now _ _ _ w Hfalsy Hfresh).
  set (g0 := Gist_new uuid4 now (GistCreate.gist_metadata payload) None
                (GistCreate.max_reads payload)) in *.
  change (Gist.gist_id g0) with uuid4. unfold bind.
  rewrite (generate_presigned_post_granted storage (uuid_str uuid4) 10485760
             {| gists := <[uuid4 := g0]> (gists w); trace := trace w ++ [EvInsert g0] |}
             post Hpost).
  unfold ret. eexists _, _. split; [reflexivity|]. cbn [GistCreateResponse.gist_id gists].
  split; [reflexivity|]. apply lookup_insert_eq.
Qed.

(** A read within budget whose grant the provider refuses. *)
Lemma api_get_gist_grant_refused (now : datetime) (id : N) (g : Gist.t) (w : World)
    (msg : string) :
  gists w !! id = Some g →
  Gist.gist_id g = id →
  expired g now = false →
  Gist.read_count g < Gist.max_reads g →
  s3_generate_presigned_url (s3_client storage)
    (trace w ++ [EvUpdate (Gist.set_read_count g (Gist.read_count g + 1))])
    (bucket_name storage) (uuid_str id) 3600 = ClientError msg →
  api_get_gist isoformat storage now id w =
    (Return (view_of isoformat None (Gist.set_read_count g (Gist.read_count g + 1))),
     {| gists := <[id := Gist.set_read_count g (Gist.read_count g + 1)]> (gists w);
        trace := trace w ++
          [EvUpdate (Gist.set_read_count g (Gist.read_count g + 1));
           EvPresignedUrl (bucket_name storage) (uuid_str id);
           EvPrint ("S3 Presigned URL Error: " ++ msg)] |}).
Proof.
  intros Hw Hid Hexp Hlt Hrefused.
  unfold api_get_gist, bind at 1, get_gist, select_gist. rewrite Hw, Hexp.
  replace (Gist.read_count g >=? Gist.max_reads g) with false
    by (symmetry; rewrite Z.geb_leb; apply Z.leb_gt; lia).
  set (g' := Gist.set_read_count g (Gist.read_count g + 1)) in *.
  unfold bind at 1, db_commit_read_count, log, set_gists.
  cbn [gists trace Gist.gist_id Gist.read_count g' Gist.set_read_count].
  rewrite Hid, (alter_present _ _ _ _ Hw). fold g'. unfold bind.
  rewrite (generate_presigned_url_refused storage (uuid_str id)
             {| gists := <[id := g']> (gists w); trace := trace w ++ [EvUpdate g'] |}
             msg Hrefused).
  unfold ret, view_of. cbn [gists trace].
  replace (Gist.gist_id g') with id by (symmetry; exact Hid).
  rewrite <- !app_assoc. reflexivity.
Qed.

Lemma normalizes_functional (exp : option string) (a b : option datetime) :
  normalizes fromisoformat exp a → normalizes fromisoformat exp b → a = b.
Proof.
  unfold normalizes. destruct (opt_str_truthy exp); [|congruence].
  intros (dt & e & Hdt & -> & He) (dt' & e' & Hdt' & -> & He').
  assert (dt' = dt) as -> by congruence.
  destruct (tzinfo dt); congruence.
Qed.

(** A gist created with an expiration that lies before the instant of its
    first read: that read is answered 410 "Gist expired", whatever
    [max_reads] is, and the row is deleted. *)
Lemma past_expiration_gone_on_first_read (uuid4 : N) (now t e : datetime)
    (payload : GistCreate.t) (created : GistCreateResponse.t) (w w1 : World) :
  primary_key w →
  api_create_gist fromisoformat storage uuid4 now payload w = (Return created, w1) →
  normalizes fromisoformat (GistCreate.expiration_date payload) (Some e) →
  e < t →
  ∃ w2,
    api_get_gist isoformat storage t (GistCreateResponse.gist_id created) w1 =
      (Raise (HTTPException 410 "Gist expired"), w2)
    ∧ gists w2 !! GistCreateResponse.gist_id created = None.
Proof.
  intros Hpk Hcreate Hnorm Hpast.
  destruct (api_create_gist_row fromisoformat storage uuid4 now payload w w1 created
              Hpk Hcreate) as (e0 & -> & Hpk1 & Hrow & Hnorm0).
  rewrite (normalizes_functional _ _ _ Hnorm0 Hnorm) in Hrow.
  destruct (api_get_gist_expired isoformat storage t uuid4 _ w1 Hrow eq_refl)
    as (prints & Hrun & _).
  { apply (expired_true _ t e); [reflexivity | exact Hpast]. }
  eexists. split; [exact Hrun|]. cbn [gists]. apply lookup_delete_eq.
Qed.

(** C5, as the code has it.  When the expiration string of a create is
    non-empty and [fromisoformat] refuses it, the [ValueError] leaves
    [api_create_gist] as it is, not as an [HTTPException]; the world is
    untouched: no row is stored and the storage is not called. *)
Theorem unparseable_expiration_raises_before_persisting (uuid4 : N) (now : datetime)
    (payload : GistCreate.t) (s : string) (w : World) :
  GistCreate.expiration_date payload = Some s →
  str_truthy s = true →
  fromisoformat s = None →
  api_create_gist fromisoformat storage uuid4 now payload w = (Raise ValueError, w).
Proof.
  intros Hexp Hs Hparse. unfold api_create_gist. rewrite Hexp. unfold bind.
  rewrite (create_gist_unparseable fromisoformat uuid4 now _ s _ w Hs Hparse).
  reflexivity.
Qed.

(** C9. Nothing on the create path looks at [max_reads].  A create with
    [max_reads = n <= 0] and no expiration, under a fresh id, is answered 201
    as soon as the provider mints the upload grant, and stores the row with
    that cap.  And for every gist created with such a cap, the first read,
    at any instant, is answered 410 and deletes the row, which had
    [read_count = 0]. *)
Theorem nonpositive_max_reads_gone_on_first_read (uuid4 : N) (now : datetime)
    (payload : GistCreate.t) (n : Z) (w : World) :
  primary_key w →
  GistCreate.max_reads payload = Some n →
  n <= 0 →
  (∀ post,
     opt_str_truthy (GistCreate.expiration_date payload) = false →
     gists w !! uuid4 = None →
     s3_generate_presigned_post (s3_client storage)
       (trace w ++ [EvInsert (Gist_new uuid4 now (GistCreate.gist_metadata payload) None
                                (Some n))])
       (bucket_name storage) (uuid_str uuid4) 10485760 3600 = Responded post →
     ∃ created w1,
       api_create_gist fromisoformat storage uuid4 now payload w = (Return created, w1)
       ∧ GistCreateResponse.gist_id created = uuid4
       ∧ gists w1 !! uuid4 =
           Some (Gist_new uuid4 now (GistCreate.gist_metadata payload) None (Some n)))
  ∧ (∀ created w1 t,
       api_create_gist fromisoformat storage uuid4 now payload w = (Return created, w1) →
       ∃ g0 detail w2,
         gists w1 !! GistCreateResponse.gist_id created = Some g0
         ∧ Gist.max_reads g0 = n
         ∧ Gist.read_count g0 = 0
         ∧ api_get_gist isoformat storage t (GistCreateResponse.gist_id created) w1 =
             (Raise (HTTPException 410 detail), w2)
         ∧ gists w2 !! GistCreateResponse.gist_id created = None).
Proof.
  intros Hpk Hmax Hn. split.
  - intros post Hfalsy Hfresh Hpost. rewrite <- Hmax in *.
    apply (api_create_gist_accepted uuid4 now payload w post Hfalsy Hfresh Hpost).
  - intros created w1 t Hcreate.
    destruct (api_create_gist_row fromisoformat storage uuid4 now payload w w1 created
                Hpk Hcreate) as (e & -> & Hpk1 & Hrow & _).
    rewrite Hmax in Hrow.
    destruct (api_get_gist_cases isoformat storage t uuid4 w1 Hpk1)
      as [(Hnone & _)|[(g & d & w2 & Hw & _ & Hrun & Hdel)|(g & url & w2 & Hw & _ & Hlt & _)]].
    + congruence.
    + eexists _, d, w2. split; [exact Hrow|]. split; [reflexivity|]. split; [reflexivity|].
      split; [exact Hrun|]. rewrite Hdel. apply lookup_delete_eq.
    + rewrite Hrow in Hw. injection Hw as <-. cbn in Hlt. lia.
Qed.

End Validation.

(** ** The statements on concrete requests *)

Lemma primary_key_world_with (g : Gist.t) : primary_key (world_with g).
Proof.
  intros id g'. unfold world_with. cbn [gists].
  intros [<- <-]%lookup_singleton_Some. reflexivity.
Qed.

(** Gist 7 is created with [max_reads = 5] and read six times. *)
Lemma five_reads_then_gone_witness :
  api_create_gist Calendar.fromisoformat storage_serving 7 noon_2025
    (sample_payload None (Some 5)) empty_world
  = (Return sample_created, created_world (sample_payload None (Some 5)))
  ∧ ∃ rs w2,
      serve_with storage_serving (reads 7 [1; 2; 3; 4; 5; 6])
        (created_world (sample_payload None (Some 5))) = (rs, w2)
      ∧ map response_status rs = [200; 200; 200; 200; 200; 410]
      ∧ map read_count_seen rs = [Some 1; Some 2; Some 3; Some 4; Some 5; None].
Proof.
  split; [reflexivity|].
  destruct (five_reads_then_gone Calendar.fromisoformat Calendar.isoformat storage_serving
              7 noon_2025 (sample_payload None (Some 5)) sample_created empty_world
              (created_world (sample_payload None (Some 5))) [1; 2; 3; 4; 5; 6]
              primary_key_empty eq_refl eq_refl eq_refl eq_refl)
    as (rs & w2 & Hserve & Hstatus & Hcounts & _).
  exists rs, w2. split; [exact Hserve|]. split; [exact Hstatus | exact Hcounts].
Defined.

(** Gist 7 is created with [max_reads = 2]; it is read twice while gist 8
    is created in between, and the stored count has then reached the cap. *)
Lemma read_count_never_exceeds_max_reads_witness :
  (∃ g0, gists (created_world (sample_payload None (Some 2))) !! 7%N = Some g0
         ∧ Gist.read_count g0 = 0
         ∧ Gist.max_reads g0 = 2)
  ∧ (∃ view,
       fst (serve_with storage_serving
              [(1, GET_gist 7); (2, POST_gists 8 (sample_payload None None)); (3, GET_gist 7)]
              (created_world (sample_payload None (Some 2)))) !! 2%nat
       = Some (Fetched (Return view))
       ∧ GistResponse.max_reads view = 2
       ∧ 1 <= GistResponse.read_count view <= GistResponse.max_reads view)
  ∧ ∃ detail w3,
      api_get_gist Calendar.isoformat storage_serving 4 7
        (snd (serve_with storage_serving
                [(1, GET_gist 7); (2, POST_gists 8 (sample_payload None None)); (3, GET_gist 7)]
                (created_world (sample_payload None (Some 2)))))
      = (Raise (HTTPException 410 detail), w3)
      ∧ gists w3 !! 7%N = None.
Proof.
  destruct (read_count_never_exceeds_max_reads Calendar.fromisoformat Calendar.isoformat
              storage_serving 7 noon_2025 (sample_payload None (Some 2)) sample_created
              empty_world (created_world (sample_payload None (Some 2)))
              (snd (serve_with storage_serving
                      [(1, GET_gist 7); (2, POST_gists 8 (sample_payload None None));
                       (3, GET_gist 7)]
                      (created_world (sample_payload None (Some 2)))))
              [(1, GET_gist 7); (2, POST_gists 8 (sample_payload None None)); (3, GET_gist 7)]
              (fst (serve_with storage_serving
                      [(1, GET_gist 7); (2, POST_gists 8 (sample_payload None None));
                       (3, GET_gist 7)]
                      (created_world (sample_payload None (Some 2)))))
              primary_key_empty eq_refl)
    as (Hrow & Hviews & Hcap).
  - repeat constructor; discriminate.
  - reflexivity.
  - split; [exact Hrow|]. split.
    + eexists. split; [reflexivity|]. eapply (Hviews 2%nat 3); reflexivity.
    + eapply (Hcap 4). { reflexivity. } cbn. lia.
Defined.

(** C4, on the code.  A live gist with budget left is read while the
    provider refuses the download grant with a [ClientError]:
    [api_get_gist] commits the increment and answers 200 with
    [download_url = None], where the claim has a 500.  The provider's
    message reaches [print] only; the response carries none of it. *)
Example api_get_gist_grant_refused_answers_200 :
  api_get_gist Calendar.isoformat storage_refusing noon_2026 7
    (world_with (sample_gist None 0 5))
  = (Return (view_of Calendar.isoformat None (sample_gist None 1 5)),
     {| gists := {[ 7%N := sample_gist None 1 5 ]};
        trace :=
          [EvUpdate (sample_gist None 1 5);
           EvPresignedUrl "securegist-dev" "00000000-0000-0000-0000-000000000007";
           EvPrint ("S3 Presigned URL Error: " ++
                    "An error occurred (AccessDenied) when calling the GetObject operation")] |})
  ∧ response_status
      (Fetched (fst (api_get_gist Calendar.isoformat storage_refusing noon_2026 7
                       (world_with (sample_gist None 0 5))))) = 200
  ∧ GistResponse.download_url (view_of Calendar.isoformat None (sample_gist None 1 5)) = None.
Proof.
  split; [reflexivity|]. split; reflexivity.
Qed.

(** The request of C5 on a string that is no timestamp, and on the empty
    string: the first is not answered 400 (the [ValueError] is uncaught),
    the second is answered 201 and stores a row. *)
Lemma unparseable_expiration_not_answered_400 :
  (Calendar.fromisoformat "not-a-date" = None
   ∧ api_create_gist Calendar.fromisoformat storage_serving 7 noon_2025
       (sample_payload (Some "not-a-date") None) empty_world
     = (Raise ValueError, empty_world)
   ∧ response_status
       (Created (fst (api_create_gist Calendar.fromisoformat storage_serving 7 noon_2025
                        (sample_payload (Some "not-a-date") None) empty_world))) ≠ 400)
  ∧ (Calendar.fromisoformat "" = None
     ∧ api_create_gist Calendar.fromisoformat storage_serving 7 noon_2025
         (sample_payload (Some "") None) empty_world
       = (Return sample_created, created_world (sample_payload (Some "") None))
     ∧ gists (created_world (sample_payload (Some "") None)) !! 7%N
       = Some (Gist_new 7 noon_2025 sample_metadata None None)).
Proof.
  split.
  - split; [reflexivity|]. split; [reflexivity|]. vm_compute. discriminate.
  - split; [reflexivity|]. split; reflexivity.
Qed.

Lemma unparseable_expiration_raises_before_persisting_witness :
  GistCreate.expiration_date (sample_payload (Some "not-a-date") None) = Some "not-a-date"
  ∧ str_truthy "not-a-date" = true
  ∧ Calendar.fromisoformat "not-a-date" = None
  ∧ api_create_gist Calendar.fromisoformat storage_serving 7 noon_2025
      (sample_payload (Some "not-a-date") None) (world_with (sample_gist None 0 5))
    = (Raise ValueError, world_with (sample_gist None 0 5)).
Proof.
  split; [reflexivity|]. split; [reflexivity|]. split; [reflexivity|].
  apply (unparseable_expiration_raises_before_persisting Calendar.fromisoformat
           storage_serving 7 noon_2025 (sample_payload (Some "not-a-date") None)
           "not-a-date"); reflexivity.
Defined.

(** Gist 7 is deleted; it is then read, deleted again and read again. *)
Lemma destroyed_gists_stay_destroyed_witness :
  api_delete_gist storage_serving 7 (world_with (sample_gist None 0 5))
  = (Return tt, snd (api_delete_gist storage_serving 7 (world_with (sample_gist None 0 5))))
  ∧ fst (serve_with storage_serving
            [(1, GET_gist 7); (2, DELETE_gist 7); (3, GET_gist 7)]
            (snd (api_delete_gist storage_serving 7 (world_with (sample_gist None 0 5)))))
      !! 0%nat
    = Some (Fetched (Raise (HTTPException 404 "Gist not found")))
  ∧ fst (serve_with storage_serving
            [(1, GET_gist 7); (2, DELETE_gist 7); (3, GET_gist 7)]
            (snd (api_delete_gist storage_serving 7 (world_with (sample_gist None 0 5)))))
      !! 1%nat
    = Some (Deleted (Raise (HTTPException 404 "Gist not found")))
  ∧ gists (snd (serve_with storage_serving
                  [(1, GET_gist 7); (2, DELETE_gist 7); (3, GET_gist 7)]
                  (snd (api_delete_gist storage_serving 7
                          (world_with (sample_gist None 0 5)))))) !! 7%N = None.
Proof.
  split; [reflexivity|].
  destruct (destroyed_gists_stay_destroyed Calendar.fromisoformat Calendar.isoformat
              storage_serving 7 0 (world_with (sample_gist None 0 5))
              (snd (api_delete_gist storage_serving 7 (world_with (sample_gist None 0 5))))
              (snd (serve_with storage_serving
                      [(1, GET_gist 7); (2, DELETE_gist 7); (3, GET_gist 7)]
                      (snd (api_delete_gist storage_serving 7
                              (world_with (sample_gist None 0 5))))))
              [(1, GET_gist 7); (2, DELETE_gist 7); (3, GET_gist 7)]
              (fst (serve_with storage_serving
                      [(1, GET_gist 7); (2, DELETE_gist 7); (3, GET_gist 7)]
                      (snd (api_delete_gist storage_serving 7
                              (world_with (sample_gist None 0 5))))))
              (primary_key_world_with _))
    as (_ & Hgone & Hrs).
  - left; reflexivity.
  - repeat constructor; discriminate.
  - reflexivity.
  - destruct (Hrs 0%nat 1) as [H0 _]. destruct (Hrs 1%nat 2) as [_ H1].
    split; [exact (H0 eq_refl)|]. split; [exact (H1 eq_refl) | exact Hgone].
Defined.



(** Gist 7 is created with the sample document and read twice, with a
    delete of another id in between. *)
Lemma metadata_round_trip_witness :
  (∃ g0, gists (created_world (sample_payload None (Some 5))) !! 7%N = Some g0
         ∧ Gist.gist_metadata g0 = sample_metadata)
  ∧ ∃ view,
      fst (serve_with storage_serving
             [(1, GET_gist 7); (2, DELETE_gist 8); (3, GET_gist 7)]
             (created_world (sample_payload None (Some 5)))) !! 2%nat
      = Some (Fetched (Return view))
      ∧ GistResponse.gist_metadata view = sample_metadata.
Proof.
  destruct (metadata_round_trip Calendar.fromisoformat Calendar.isoformat storage_serving
              7 noon_2025 (sample_payload None (Some 5)) sample_created empty_world
              (created_world (sample_payload None (Some 5)))
              (snd (serve_with storage_serving
                      [(1, GET_gist 7); (2, DELETE_gist 8); (3, GET_gist 7)]
                      (created_world (sample_payload None (Some 5)))))
              [(1, GET_gist 7); (2, DELETE_gist 8); (3, GET_gist 7)]
              (fst (serve_with storage_serving
                      [(1, GET_gist 7); (2, DELETE_gist 8); (3, GET_gist 7)]
                      (created_world (sample_payload None (Some 5)))))
              primary_key_empty eq_refl)
    as (Hrow & Hviews).
  - repeat constructor; discriminate.
  - reflexivity.
  - split; [exact Hrow|].
    eexists. split; [reflexivity|]. eapply (Hviews 2%nat 3); reflexivity.
Defined.

(** Gist 7 is created with [max_reads = 0] and read once. *)
Lemma nonpositive_max_reads_gone_on_first_read_witness :
  (∃ created w1,
     api_create_gist Calendar.fromisoformat storage_serving 7 noon_2025
       (sample_payload None (Some 0)) empty_world = (Return created, w1)
     ∧ GistCreateResponse.gist_id created = 7%N
     ∧ gists w1 !! 7%N = Some (Gist_new 7 noon_2025 sample_metadata None (Some 0)))
  ∧ ∃ g0 detail w2,
      gists (created_world (sample_payload None (Some 0))) !! 7%N = Some g0
      ∧ Gist.max_reads g0 = 0
      ∧ Gist.read_count g0 = 0
      ∧ api_get_gist Calendar.isoformat storage_serving noon_2026 7
          (created_world (sample_payload None (Some 0)))
        = (Raise (HTTPException 410 detail), w2)
      ∧ gists w2 !! 7%N = None.
Proof.
  destruct (nonpositive_max_reads_gone_on_first_read Calendar.fromisoformat
              Calendar.isoformat storage_serving 7 noon_2025
              (sample_payload None (Some 0)) 0 empty_world primary_key_empty eq_refl)
    as [Haccepted Hfirst]; [lia|].
  split.
  - eapply Haccepted; reflexivity.
  - apply (Hfirst sample_created (created_world (sample_payload None (Some 0))) noon_2026).
    reflexivity.
Defined.

(** Gist 7, expiring in 2026, is read in 2025. *)
Lemma read_changes_only_read_count_witness :
  ∃ g g',
    gists (world_with (sample_gist (Some noon_2026) 0 5)) !! 7%N = Some g
    ∧ gists (snd (api_get_gist Calendar.isoformat storage_serving noon_2025 7
                    (world_with (sample_gist (Some noon_2026) 0 5)))) !! 7%N = Some g'
    ∧ Gist.read_count g' = Gist.read_count g + 1
    ∧ same_but_read_count g g'.
Proof.
  destruct (read_changes_only_read_count Calendar.isoformat storage_serving noon_2025 7
              (world_with (sample_gist (Some noon_2026) 0 5))
              (snd (api_get_gist Calendar.isoformat storage_serving noon_2025 7
                      (world_with (sample_gist (Some noon_2026) 0 5))))
              (Return (view_of Calendar.isoformat (Some sample_download_url)
                         (sample_gist (Some noon_2026) 1 5)))
              (primary_key_world_with _) eq_refl) as [Hread _].
  destruct (Hread _ eq_refl) as (g & g' & Hg & Hg' & Hcount & Hsame & _).
  exists g, g'. auto.
Defined.

(** Every world the application reaches from the empty table respects the
    primary key. *)
Lemma reachable_primary_key (fromisoformat : string -> option parsed_datetime)
    (isoformat : datetime -> string) (storage : Storage)
    (reqs : list (datetime * Request)) :
  primary_key (snd (serve fromisoformat isoformat storage reqs empty_world)).
Proof.
  destruct (serve fromisoformat isoformat storage reqs empty_world) as [rs w] eqn:Hrun.
  exact (serve_primary_key fromisoformat isoformat storage reqs empty_world w rs
           primary_key_empty Hrun).
Qed.

(** ** The reference calendar on the sample instants *)

Example noon_2025_parsed :
  Calendar.fromisoformat "2025-01-01T12:00:00"
  = Some {| wall := noon_2025; tzinfo := None |}.
Proof. reflexivity. Qed.

Example noon_2026_printed : Calendar.isoformat noon_2026 = "2026-01-01T12:00:00".
Proof. reflexivity. Qed.

Example offset_is_kept_apart :
  Calendar.fromisoformat "2025-01-01T14:00:00+02:00"
  = Some {| wall := noon_2025 + 2 * 3600 * 1000000; tzinfo := Some (2 * 3600 * 1000000) |}
  ∧ astimezone_utc_naive
      {| wall := noon_2025 + 2 * 3600 * 1000000; tzinfo := Some (2 * 3600 * 1000000) |}
      (2 * 3600 * 1000000) = Some noon_2025.
Proof. split; reflexivity. Qed.

Example datetime_max_printed :
  Calendar.isoformat datetime_max = "9999-12-31T23:59:59.999999".
Proof. reflexivity. Qed.

(** ** tests/test_api.py, replayed on the model *)

Example test_get_gist :
  map response_status
    (fst (serve_with storage_serving
            [(noon_2025, POST_gists 7 (sample_payload None (Some 5)));
             (noon_2025 + 1, GET_gist 7)] empty_world)) = [201; 200]
  ∧ map read_count_seen
      (fst (serve_with storage_serving
              [(noon_2025, POST_gists 7 (sample_payload None (Some 5)));
               (noon_2025 + 1, GET_gist 7)] empty_world)) = [None; Some 1].
Proof. split; reflexivity. Qed.

Example test_read_limit :
  map response_status
    (fst (serve_with storage_serving
            [(noon_2025, POST_gists 7 (sample_payload None (Some 1)));
             (noon_2025 + 1, GET_gist 7);
             (noon_2025 + 2, GET_gist 7)] empty_world)) = [201; 200; 410].
Proof. reflexivity. Qed.

Example test_expiration :
  map response_status
    (fst (serve_with storage_serving
            [(noon_2026, POST_gists 7 (sample_payload (Some "2026-01-01T11:00:00+00:00") None));
             (noon_2026 + 1, GET_gist 7)] empty_world)) = [201; 410].
Proof. reflexivity. Qed.

Example test_delete_gist :
  map response_status
    (fst (serve_with storage_serving
            [(noon_2025, POST_gists 7 (sample_payload None None));
             (noon_2025 + 1, DELETE_gist 7);
             (noon_2025 + 2, GET_gist 7)] empty_world)) = [201; 204; 404].
Proof. reflexivity. Qed.

(** * Beyond the claims: the rest of [storage.py], [crud.py] and [api.py] *)

(** ** [str.replace] and [in], as [_replace_endpoint] uses them *)

Lemma prefix_empty (s : string) : String.prefix "" s = true.
Proof. destruct s; reflexivity. Qed.

Lemma prefix_append (p rest : string) : String.prefix p (p ++ rest) = true.
Proof.
  induction p as [|a p IH]; simpl.
  - apply prefix_empty.
  - destruct (ascii_dec a a) as [_|Hne]; [exact IH | contradiction].
Qed.

Lemma str_contains_append (p rest : string) : str_contains p (p ++ rest) = true.
Proof.
  destruct (p ++ rest) as [|c s] eqn:Hs; cbn [str_contains].
  - destruct p; [reflexivity | discriminate].
  - rewrite <- Hs, prefix_append. reflexivity.
Qed.

(** Where [old] does not occur, nothing is replaced. *)
Lemma str_replace_absent (old new s : string) :
  str_contains old s = false → str_replace old new s = s.
Proof.
  destruct old as [|a old'].
  - intros Habs. destruct s; cbn in Habs; discriminate.
  - cbn [str_replace]. induction s as [|c s IH]; [reflexivity|].
    cbn [str_contains]. intros [Hhead Htail]%orb_false_elim.
    cbn [str_replace_from]. rewrite Hhead, (IH Htail). reflexivity.
Qed.

Lemma str_replace_from_skip (p old new rest : string) :
  str_replace_from (String.length p) old new (p ++ rest)
  = str_replace_from 0 old new rest.
Proof.
  induction p as [|c p IH]; cbn [String.length String.append].
  - reflexivity.
  - cbn [str_replace_from]. exact IH.
Qed.

(** A leading occurrence is replaced, and the scan goes on behind it. *)
Lemma str_replace_prefix (old new rest : string) :
  str_truthy old = true →
  str_replace old new (old ++ rest) = new ++ str_replace old new rest.
Proof.
  destruct old as [|a old']; [discriminate|]. intros _.
  cbn [str_replace]. change (String a old' ++ rest) with (String a (old' ++ rest)).
  cbn [str_replace_from].
  change (String a (old' ++ rest)) with (String a old' ++ rest) at 1.
  rewrite prefix_append. cbn [String.length Nat.pred].
  rewrite str_replace_from_skip. reflexivity.
Qed.

(** X1. [_replace_endpoint] is [url.replace(internal, public)] as soon as
    both endpoints are configured and non-empty, and the identity
    otherwise: the test [self.endpoint_url in url] guards nothing, since
    replacing an endpoint that does not occur changes nothing. *)
Theorem replace_endpoint_is_replace (self : Storage) (url : string) :
  _replace_endpoint self url =
    if opt_str_truthy (endpoint_url self) && opt_str_truthy (public_endpoint_url self)
    then str_replace (default "" (endpoint_url self))
           (default "" (public_endpoint_url self)) url
    else url.
Proof.
  unfold _replace_endpoint.
  destruct (endpoint_url self) as [internal|], (public_endpoint_url self) as [public|];
    cbn [opt_str_truthy default from_option id andb]; try reflexivity.
  - destruct (str_truthy internal), (str_truthy public); cbn [andb]; try reflexivity.
    destruct (str_contains internal url) eqn:Hin; [reflexivity|].
    symmetry. apply str_replace_absent, Hin.
  - destruct (str_truthy internal); reflexivity.
Qed.

(** X2. With both endpoints configured, a URL that starts with the
    internal endpoint comes out starting with the public one; behind it
    the replacement goes on, so a path free of the internal endpoint is
    kept as it is. *)
Theorem replace_endpoint_rewrites_prefix (self : Storage) (internal public path : string) :
  endpoint_url self = Some internal →
  public_endpoint_url self = Some public →
  str_truthy internal = true →
  str_truthy public = true →
  _replace_endpoint self (internal ++ path) = public ++ str_replace internal public path
  ∧ (str_contains internal path = false →
     _replace_endpoint self (internal ++ path) = public ++ path).
Proof.
  intros Hint Hpub Hi Hp.
  assert (_replace_endpoint self (internal ++ path)
          = public ++ str_replace internal public path) as Hrw.
  { unfold _replace_endpoint. rewrite Hint, Hpub, Hi, Hp, str_contains_append.
    cbn [andb]. apply str_replace_prefix, Hi. }
  split; [exact Hrw|]. intros Habs. rewrite Hrw, (str_replace_absent _ _ _ Habs).
  reflexivity.
Qed.

Lemma replace_endpoint_rewrites_prefix_witness :
  _replace_endpoint storage_serving ("http://minio:9000" ++ "/securegist-dev/key?sig=1")
  = "http://localhost:9000" ++ "/securegist-dev/key?sig=1".
Proof.
  apply (replace_endpoint_rewrites_prefix storage_serving "http://minio:9000"
           "http://localhost:9000" "/securegist-dev/key?sig=1");
    reflexivity.
Defined.

(** ** Grants on the create and read paths *)

Section Grants.

Variable fromisoformat : string -> option parsed_datetime.
Variable isoformat : datetime -> string.
Variable storage : Storage.

Lemma generate_presigned_post_refused (key : string) (max_size_bytes : Z) (w : World)
    (msg : string) :
  s3_generate_presigned_post (s3_client storage) (trace w) (bucket_name storage) key
    max_size_bytes 3600 = ClientError msg →
  generate_presigned_post storage key max_size_bytes w =
    (Return None,
     {| gists := gists w;
        trace := trace w ++ [EvPresignedPost (bucket_name storage) key;
                             EvPrint ("S3 Presigned Post Error: " ++ msg)] |}).
Proof.
  intros Hrefused. unfold generate_presigned_post, bind, history, emit, log; simpl.
  rewrite Hrefused. simpl. rewrite <- app_assoc. reflexivity.
Qed.

Lemma generate_presigned_url_granted (key : string) (w : World) (url : string) :
  s3_generate_presigned_url (s3_client storage) (trace w) (bucket_name storage) key 3600
    = Responded url →
  generate_presigned_url storage key w =
    (Return (if str_truthy url then Some (_replace_endpoint storage url) else None),
     {| gists := gists w;
        trace := trace w ++ [EvPresignedUrl (bucket_name storage) key] |}).
Proof.
  intros Hgranted. unfold generate_presigned_url, bind, history, emit, log; simpl.
  rewrite Hgranted. reflexivity.
Qed.

(** [create_gist] under a fresh id, for an expiration that normalizes. *)
Lemma create_gist_normalized (uuid4 : N) (now : datetime) (meta : dict)
    (exp : option string) (e : option datetime) (cap : option Z) (w : World) :
  normalizes fromisoformat exp e →
  gists w !! uuid4 = None →
  create_gist fromisoformat uuid4 now meta exp cap w =
    (Return (Gist_new uuid4 now meta e cap),
     {| gists := <[uuid4 := Gist_new uuid4 now meta e cap]> (gists w);
        trace := trace w ++ [EvInsert (Gist_new uuid4 now meta e cap)] |}).
Proof.
  unfold normalizes, create_gist. intros Hnorm Hfresh.
  destruct (opt_str_truthy exp).
  - destruct Hnorm as (dt & e' & -> & -> & He').
    destruct (tzinfo dt) as [off|]; [rewrite He'|rewrite He'];
      unfold bind, ret;
      rewrite (db_add_commit_fresh (Gist_new uuid4 now meta (Some e') cap) w Hfresh);
      reflexivity.
  - rewrite Hnorm. unfold bind, ret.
    rewrite (db_add_commit_fresh (Gist_new uuid4 now meta None cap) w Hfresh).
    reflexivity.
Qed.

(** X3. A create whose upload grant the provider mints is answered with
    the drawn id and the grant: its URL after [_replace_endpoint], its form
    fields untouched.  The row has been inserted first, with
    [read_count = 0], [created_at = now] and the normalized expiration; then
    the provider was asked once, for key [str(gist_id)], and nothing was
    printed. *)
Theorem api_create_gist_returns_upload_grant (uuid4 : N) (now : datetime)
    (payload : GistCreate.t) (e : option datetime) (w : World) (post : PresignedPost) :
  normalizes fromisoformat (GistCreate.expiration_date payload) e →
  gists w !! uuid4 = None →
  s3_generate_presigned_post (s3_client storage)
    (trace w ++ [EvInsert (Gist_new uuid4 now (GistCreate.gist_metadata payload) e
                             (GistCreate.max_reads payload))])
    (bucket_name storage) (uuid_str uuid4) 10485760 3600 = Responded post →
  api_create_gist fromisoformat storage uuid4 now payload w =
    (Return {| GistCreateResponse.gist_id := uuid4;
               GistCreateResponse.upload_params :=
                 {| post_url := _replace_endpoint storage (post_url post);
                    post_fields := post_fields post |} |},
     {| gists := <[uuid4 := Gist_new uuid4 now (GistCreate.gist_metadata payload) e
                              (GistCreate.max_reads payload)]> (gists w);
        trace := trace w ++
          [EvInsert (Gist_new uuid4 now (GistCreate.gist_metadata payload) e
                       (GistCreate.max_reads payload));
           EvPresignedPost (bucket_name storage) (uuid_str uuid4)] |}).
Proof.
  intros Hnorm Hfresh Hpost.
  unfold api_create_gist. unfold bind at 1.
  rewrite (create_gist_normalized uuid4 now _ _ e _ w Hnorm Hfresh).
  set (g0 := Gist_new uuid4 now (GistCreate.gist_metadata payload) e
                (GistCreate.max_reads payload)) in *.
  change (Gist.gist_id g0) with uuid4. unfold bind.
  rewrite (generate_presigned_post_granted storage (uuid_str uuid4) 10485760
             {| gists := <[uuid4 := g0]> (gists w); trace := trace w ++ [EvInsert g0] |}
             post Hpost).
  unfold ret. cbn [gists trace]. rewrite <- app_assoc. reflexivity.
Qed.

(** X4. A create whose upload grant the provider refuses is answered 500
    "Failed to generate upload URL", and the row inserted before the
    refusal is not taken back: it stays in the table under the drawn id,
    which the caller never learns, and a delete of that id still finds
    it.  The provider's message is printed, not returned. *)
Theorem api_create_gist_grant_refused_keeps_row (uuid4 : N) (now : datetime)
    (payload : GistCreate.t) (e : option datetime) (w : World) (msg : string) :
  normalizes fromisoformat (GistCreate.expiration_date payload) e →
  gists w !! uuid4 = None →
  s3_generate_presigned_post (s3_client storage)
    (trace w ++ [EvInsert (Gist_new uuid4 now (GistCreate.gist_metadata payload) e
                             (GistCreate.max_reads payload))])
    (bucket_name storage) (uuid_str uuid4) 10485760 3600 = ClientError msg →
  ∃ w1,
    api_create_gist fromisoformat storage uuid4 now payload w =
      (Raise (HTTPException 500 "Failed to generate upload URL"), w1)
    ∧ gists w1 !! uuid4 =
        Some (Gist_new uuid4 now (GistCreate.gist_metadata payload) e
                (GistCreate.max_reads payload))
    ∧ trace w1 =
        (trace w ++
           [EvInsert (Gist_new uuid4 now (GistCreate.gist_metadata payload) e
                        (GistCreate.max_reads payload));
            EvPresignedPost (bucket_name storage) (uuid_str uuid4);
            EvPrint ("S3 Presigned Post Error: " ++ msg)])%list
    ∧ ∃ w2, api_delete_gist storage uuid4 w1 = (Return tt, w2).
Proof.
  intros Hnorm Hfresh Hpost.
  unfold api_create_gist. unfold bind at 1.
  rewrite (create_gist_normalized uuid4 now _ _ e _ w Hnorm Hfresh).
  set (g0 := Gist_new uuid4 now (GistCreate.gist_metadata payload) e
                (GistCreate.max_reads payload)) in *.
  change (Gist.gist_id g0) with uuid4. unfold bind.
  rewrite (generate_presigned_post_refused (uuid_str uuid4) 10485760
             {| gists := <[uuid4 := g0]> (gists w); trace := trace w ++ [EvInsert g0] |}
             msg Hpost).
  unfold raise. eexists. split; [reflexivity|]. cbn [gists trace].
  assert (<[uuid4 := g0]> (gists w) !! uuid4 = Some g0) as Hrow by apply lookup_insert_eq.
  split; [exact Hrow|]. split; [rewrite <- app_assoc; reflexivity|].
  destruct (api_delete_gist_found storage uuid4 g0
              {| gists := <[uuid4 := g0]> (gists w);
                 trace := (trace w ++ [EvInsert g0]) ++
                            [EvPresignedPost (bucket_name storage) (uuid_str uuid4);
                             EvPrint ("S3 Presigned Post Error: " ++ msg)] |}
              Hrow eq_refl) as (prints & Hdel & _).
  eexists. exact Hdel.
Qed.

(** X5. A read within budget whose download grant the provider mints is
    answered with the provider's URL after [_replace_endpoint] (with no
    URL when the provider returns an empty string), next to the row as it
    has just been committed.  The provider was asked once, after the
    commit, for key [str(gist_id)], and nothing was printed. *)
Theorem api_get_gist_returns_download_grant (now : datetime) (id : N) (g : Gist.t)
    (w : World) (url : string) :
  gists w !! id = Some g →
  Gist.gist_id g = id →
  expired g now = false →
  Gist.read_count g < Gist.max_reads g →
  s3_generate_presigned_url (s3_client storage)
    (trace w ++ [EvUpdate (Gist.set_read_count g (Gist.read_count g + 1))])
    (bucket_name storage) (uuid_str id) 3600 = Responded url →
  api_get_gist isoformat storage now id w =
    (Return (view_of isoformat
               (if str_truthy url then Some (_replace_endpoint storage url) else None)
               (Gist.set_read_count g (Gist.read_count g + 1))),
     {| gists := <[id := Gist.set_read_count g (Gist.read_count g + 1)]> (gists w);
        trace := trace w ++
          [EvUpdate (Gist.set_read_count g (Gist.read_count g + 1));
           EvPresignedUrl (bucket_name storage) (uuid_str id)] |}).
Proof.
  intros Hw Hid Hexp Hlt Hgranted.
  unfold api_get_gist, bind at 1, get_gist, select_gist. rewrite Hw, Hexp.
  replace (Gist.read_count g >=? Gist.max_reads g) with false
    by (symmetry; rewrite Z.geb_leb; apply Z.leb_gt; lia).
  set (g' := Gist.set_read_count g (Gist.read_count g + 1)) in *.
  unfold bind at 1, db_commit_read_count, log, set_gists.
  cbn [gists trace Gist.gist_id Gist.read_count g' Gist.set_read_count].
  rewrite Hid, (alter_present _ _ _ _ Hw). fold g'. unfold bind.
  rewrite (generate_presigned_url_granted (uuid_str id)
             {| gists := <[id := g']> (gists w); trace := trace w ++ [EvUpdate g'] |}
             url Hgranted).
  unfold ret, view_of. cbn [gists trace].
  replace (Gist.gist_id g') with id by (symmetry; exact Hid).
  rewrite <- !app_assoc. reflexivity.
Qed.

End Grants.

Lemma api_create_gist_returns_upload_grant_witness :
  api_create_gist Calendar.fromisoformat storage_serving 7 noon_2025
    (sample_payload (Some "2026-01-01T14:00:00+02:00") (Some 5)) empty_world
  = (Return sample_created,
     {| gists := {[ 7%N := Gist_new 7 noon_2025 sample_metadata (Some noon_2026) (Some 5) ]};
        trace := [EvInsert (Gist_new 7 noon_2025 sample_metadata (Some noon_2026) (Some 5));
                  EvPresignedPost "securegist-dev"
                    "00000000-0000-0000-0000-000000000007"] |}).
Proof.
  rewrite (api_create_gist_returns_upload_grant Calendar.fromisoformat storage_serving
             7 noon_2025 (sample_payload (Some "2026-01-01T14:00:00+02:00") (Some 5))
             (Some noon_2026) empty_world
             {| post_url := "http://minio:9000/securegist-dev";
                post_fields := [("key", "00000000-0000-0000-0000-000000000007");
                                ("policy", "test"); ("signature", "test")] |}).
  - reflexivity.
  - exists {| wall := noon_2026 + 2 * 3600 * 1000000;
              tzinfo := Some (2 * 3600 * 1000000) |}, noon_2026.
    split; [reflexivity|]. split; reflexivity.
  - reflexivity.
  - reflexivity.
Defined.

Lemma api_create_gist_grant_refused_keeps_row_witness :
  ∃ w1,
    api_create_gist Calendar.fromisoformat storage_refusing 7 noon_2025
      (sample_payload None (Some 5)) empty_world
    = (Raise (HTTPException 500 "Failed to generate upload URL"), w1)
    ∧ gists w1 !! 7%N = Some (Gist_new 7 noon_2025 sample_metadata None (Some 5)).
Proof.
  destruct (api_create_gist_grant_refused_keeps_row Calendar.fromisoformat storage_refusing
              7 noon_2025 (sample_payload None (Some 5)) None empty_world
              "An error occurred (AccessDenied) when calling the PutObject operation"
              eq_refl eq_refl eq_refl) as (w1 & Hrun & Hrow & _).
  exists w1. split; [exact Hrun | exact Hrow].
Defined.

Lemma api_get_gist_returns_download_grant_witness :
  fst (api_get_gist Calendar.isoformat storage_serving noon_2025 7
         (world_with (sample_gist None 0 5)))
  = Return (view_of Calendar.isoformat (Some sample_download_url) (sample_gist None 1 5)).
Proof.
  rewrite (api_get_gist_returns_download_grant Calendar.isoformat storage_serving
             noon_2025 7 (sample_gist None 0 5) (world_with (sample_gist None 0 5))
             "http://minio:9000/securegist-dev/00000000-0000-0000-0000-000000000007?signature=test");
    reflexivity.
Defined.

(** ** Runs: isolation, budget, counting *)

Section MoreRuns.

Variable fromisoformat : string -> option parsed_datetime.
Variable isoformat : datetime -> string.
Variable storage : Storage.

(** X6. A request changes at most the row of the gist it is about: the
    row of every other id is after the request what it was before.  So a
    gist is never deleted, counted or replaced by requests for other
    gists; in particular an expired gist stays stored until it is read or
    deleted itself. *)
Theorem requests_touch_one_gist (now : datetime) (req : Request) (w w' : World)
    (r : Response) :
  primary_key w →
  handle fromisoformat isoformat storage now req w = (r, w') →
  ∀ id, id ≠ target req → gists w' !! id = gists w !! id.
Proof.
  intros Hpk Hstep id Hne. destruct req as [uuid4 payload|id'|id']; cbn [handle target] in *.
  - destruct (api_create_gist _ _ _ _ _ w) as [o w1] eqn:Hrun. injection Hstep as _ <-.
    apply api_create_gist_table in Hrun as [->|(_ & e & ->)]; [reflexivity|].
    apply lookup_insert_ne. congruence.
  - destruct (api_get_gist_cases isoformat storage now id' w Hpk)
      as [(_ & Hrun)|[(g & d & w1 & _ & _ & Hrun & Hdel)|(g & url & w1 & _ & _ & _ & Hrun & Hins)]];
      rewrite Hrun in Hstep; injection Hstep as _ <-.
    + reflexivity.
    + rewrite Hdel. apply lookup_delete_ne. congruence.
    + rewrite Hins. apply lookup_insert_ne. congruence.
  - destruct (api_delete_gist_cases storage id' w Hpk) as [(_ & Hrun)|(g & w1 & _ & Hrun & Hdel)];
      rewrite Hrun in Hstep; injection Hstep as _ <-.
    + reflexivity.
    + rewrite Hdel. apply lookup_delete_ne. congruence.
Qed.

(** X7. Deleting a gist right after the 201 that created it is answered
    204 and leaves the table exactly as it was before the create. *)
Theorem create_then_delete_restores_table (uuid4 : N) (now : datetime)
    (payload : GistCreate.t) (created : GistCreateResponse.t) (w w1 : World) :
  api_create_gist fromisoformat storage uuid4 now payload w = (Return created, w1) →
  ∃ w2,
    api_delete_gist storage (GistCreateResponse.gist_id created) w1 = (Return tt, w2)
    ∧ gists w2 = gists w.
Proof.
  intros Hcreate.
  apply api_create_gist_returned in Hcreate as (-> & Hfresh & e & Htable & _).
  assert (gists w1 !! uuid4 =
            Some (Gist_new uuid4 now (GistCreate.gist_metadata payload) e
                    (GistCreate.max_reads payload))) as Hrow
    by (rewrite Htable; apply lookup_insert_eq).
  destruct (api_delete_gist_found storage uuid4 _ w1 Hrow eq_refl) as (prints & Hdel & _).
  eexists. split; [exact Hdel|]. cbn [gists].
  rewrite Htable, delete_insert_eq. apply delete_id, Hfresh.
Qed.

(** X8. A UUID that no create of the run has drawn is unknown throughout
    a run that starts from the empty table: every read and every delete
    whose path denotes that UUID is answered 404.  Paths that denote no
    UUID are outside the statement. *)
Theorem undrawn_ids_are_not_found (id : N) (reqs : list (datetime * Request))
    (rs : list Response) (w' : World) :
  (id < UUID_LIMIT)%N →
  never_redrawn id reqs →
  serve fromisoformat isoformat storage reqs empty_world = (rs, w') →
  ∀ i t,
    (reqs !! i = Some (t, GET_gist id) →
     rs !! i = Some (Fetched (Raise (HTTPException 404 "Gist not found"))))
    ∧ (reqs !! i = Some (t, DELETE_gist id) →
       rs !! i = Some (Deleted (Raise (HTTPException 404 "Gist not found")))).
Proof.
  intros _ Hnr Hserve.
  apply (serve_absent fromisoformat isoformat storage id reqs empty_world w' rs
           primary_key_empty (lookup_empty id) Hnr Hserve).
Qed.

Lemma serve_length (reqs : list (datetime * Request)) :
  ∀ (w w' : World) (rs : list Response),
    serve fromisoformat isoformat storage reqs w = (rs, w') → length rs = length reqs.
Proof.
  induction reqs as [|[now req] reqs IH]; intros w w' rs; cbn [serve].
  - intros [= <- _]. reflexivity.
  - destruct (handle _ _ _ now req w) as [r w1].
    destruct (serve _ _ _ reqs w1) as [rs' w2] eqn:Hrest. intros [= <- _].
    cbn [length]. f_equal. eapply IH, Hrest.
Qed.

(** X9. The read budget of a gist without expiration is exactly its cap,
    whatever the cap: created with [max_reads = n >= 0] (100 when the
    request gives none), the gist is served [n] times in a row, the [i]-th
    read showing [read_count = i], and the read after those is answered 410
    "Read limit exceeded" and removes the row. *)
Theorem budget_is_exactly_max_reads (uuid4 : N) (now : datetime) (payload : GistCreate.t)
    (created : GistCreateResponse.t) (w w1 : World) (instants : list datetime) :
  primary_key w →
  opt_str_truthy (GistCreate.expiration_date payload) = false →
  api_create_gist fromisoformat storage uuid4 now payload w = (Return created, w1) →
  0 <= default 100 (GistCreate.max_reads payload) →
  Z.of_nat (length instants) = default 100 (GistCreate.max_reads payload) + 1 →
  ∃ rs w2,
    serve fromisoformat isoformat storage
      (reads (GistCreateResponse.gist_id created) instants) w1 = (rs, w2)
    ∧ (∀ i, Z.of_nat i < default 100 (GistCreate.max_reads payload) →
         read_count_seen <$> rs !! i = Some (Some (Z.of_nat i + 1)))
    ∧ rs !! Z.to_nat (default 100 (GistCreate.max_reads payload))
      = Some (Fetched (Raise (HTTPException 410 "Read limit exceeded")))
    ∧ gists w2 !! GistCreateResponse.gist_id created = None.
Proof.
  intros Hpk Hfalsy Hcreate Hcap Hlen.
  destruct (api_create_gist_row fromisoformat storage uuid4 now payload w w1 created
              Hpk Hcreate) as (e & -> & Hpk1 & Hrow & He).
  unfold normalizes in He. rewrite Hfalsy in He. rewrite He in Hrow. clear He e.
  set (cap := default 100 (GistCreate.max_reads payload)) in *.
  set (g0 := Gist_new uuid4 now (GistCreate.gist_metadata payload) None
               (GistCreate.max_reads payload)) in *.
  set (n := Z.to_nat cap).
  assert (length (take n instants) = n) as Htake by (rewrite length_take; lia).
  assert (∃ t, drop n instants = [t]) as [t Hdrop].
  { assert (length (drop n instants) = 1%nat) as Hone by (rewrite length_drop; lia).
    destruct (drop n instants) as [|t [|]]; try discriminate. eauto. }
  rewrite <- (take_drop n instants), Hdrop.
  unfold reads. rewrite map_app. fold (reads uuid4 (take n instants)).
  rewrite serve_app.
  destruct (serve_reads_within_budget fromisoformat isoformat storage (take n instants)
              w1 g0 uuid4 Hpk1 Hrow eq_refl)
    as (rs & w5 & Hserve & Hrs & Hviews & Htable).
  { rewrite Htake. subst g0; cbn [Gist_new Gist.read_count Gist.max_reads]. fold cap. lia. }
  rewrite Hserve. rewrite Htake in *.
  assert (gists w5 !! uuid4 = Some (Gist.set_read_count g0 (0 + Z.of_nat n))) as Hrow5
    by (rewrite Htable; apply lookup_insert_eq).
  destruct (api_get_gist_exhausted isoformat storage t uuid4 _ w5 Hrow5 eq_refl)
    as (prints & Hlast & _); [reflexivity | |].
  { subst g0; cbn [Gist.set_read_count Gist_new Gist.read_count Gist.max_reads].
    fold cap. lia. }
  cbn [map serve handle]. rewrite Hlast.
  eexists _, _. split; [reflexivity|]. split; [|split].
  - intros i Hi. rewrite lookup_app_l by lia.
    destruct (Hviews i) as (url & ->); [lia|]. reflexivity.
  - rewrite lookup_app_r by lia. rewrite Hrs, Nat.sub_diag. reflexivity.
  - cbn [gists]. apply lookup_delete_eq.
Qed.

End MoreRuns.

(** ** Runs: what the table and the trace always look like *)

Section Invariants.

Variable fromisoformat : string -> option parsed_datetime.
Variable isoformat : datetime -> string.
Variable storage : Storage.



Lemma table_invariant_primary_key (w : World) : table_invariant w → primary_key w.
Proof. intros Hinv id g Hw. apply (Hinv id g Hw). Qed.

Lemma handle_table_invariant (now : datetime) (req : Request) (w w' : World) (r : Response) :
  table_invariant w →
  handle fromisoformat isoformat storage now req w = (r, w') →
  table_invariant w'
  ∧ ∀ view, r = Fetched (Return view) →
      GistResponse.version_history view = None
      ∧ 1 <= GistResponse.read_count view <= GistResponse.max_reads view.
Proof.
  intros Hinv. pose proof (table_invariant_primary_key w Hinv) as Hpk.
  destruct req as [uuid4 payload|id|id]; cbn [handle].
  - destruct (api_create_gist _ _ _ _ _ w) as [o w1] eqn:Hrun. intros [= <- <-].
    split; [|discriminate].
    apply api_create_gist_table in Hrun as [Hsame|(_ & e & Hins)]; intros key g.
    + rewrite Hsame. apply Hinv.
    + rewrite Hins. destruct (decide (uuid4 = key)) as [<-|Hne].
      * rewrite lookup_insert_eq. intros [= <-]. unfold row_invariant.
        cbn [Gist_new Gist.gist_id Gist.version_history Gist.read_count Gist.max_reads].
        split; [reflexivity|]. split; [reflexivity|]. lia.
      * rewrite lookup_insert_ne by assumption. apply Hinv.
  - destruct (api_get_gist_cases isoformat storage now id w Hpk)
      as [(_ & Hrun)|[(g0 & d & w1 & _ & _ & Hrun & Hdel)|(g0 & url & w1 & Hw0 & _ & Hlt & Hrun & Hins)]];
      rewrite Hrun; intros [= <- <-].
    + split; [exact Hinv | discriminate].
    + split; [|discriminate]. intros key g. rewrite Hdel.
      intros [_ Hrow]%lookup_delete_Some. apply Hinv, Hrow.
    + destruct (Hinv id g0 Hw0) as (Hid & Hvh & Hrc). split.
      * intros key g. rewrite Hins. destruct (decide (id = key)) as [<-|Hne].
        -- rewrite lookup_insert_eq. intros [= <-]. unfold row_invariant.
           cbn [Gist.set_read_count Gist.gist_id Gist.version_history Gist.read_count
                Gist.max_reads].
           split; [exact Hid|]. split; [exact Hvh|]. lia.
        -- rewrite lookup_insert_ne by assumption. apply Hinv.
      * intros view [= <-].
        cbn [view_of Gist.set_read_count GistResponse.version_history
             GistResponse.read_count GistResponse.max_reads Gist.version_history
             Gist.read_count Gist.max_reads].
        split; [exact Hvh | lia].
  - destruct (api_delete_gist_cases storage id w Hpk) as [(_ & Hrun)|(g0 & w1 & _ & Hrun & Hdel)];
      rewrite Hrun; intros [= <- <-].
    + split; [exact Hinv | discriminate].
    + split; [|discriminate]. intros key g. rewrite Hdel.
      intros [_ Hrow]%lookup_delete_Some. apply Hinv, Hrow.
Qed.

Lemma serve_table_invariant (reqs : list (datetime * Request)) :
  ∀ (w w' : World) (rs : list Response),
    table_invariant w →
    serve fromisoformat isoformat storage reqs w = (rs, w') →
    table_invariant w'
    ∧ ∀ i view, rs !! i = Some (Fetched (Return view)) →
        GistResponse.version_history view = None
        ∧ 1 <= GistResponse.read_count view <= GistResponse.max_reads view.
Proof.
  induction reqs as [|[now req] reqs IH]; intros w w' rs Hinv; cbn [serve].
  - intros [= <- <-]. split; [exact Hinv|]. intros i view Hi. discriminate Hi.
  - destruct (handle _ _ _ now req w) as [r w1] eqn:Hstep.
    destruct (serve _ _ _ reqs w1) as [rs' w2] eqn:Hrest. intros [= <- <-].
    destruct (handle_table_invariant now req w w1 r Hinv Hstep) as [Hinv1 Hview].
    destruct (IH w1 w2 rs' Hinv1 Hrest) as [Hinv2 Hviews].
    split; [exact Hinv2|]. intros [|i] view.
    + intros [= ->]. apply Hview. reflexivity.
    + apply Hviews.
Qed.

(** X11. Whatever requests are served from the empty table, every stored
    row sits under its own [gist_id], has no [version_history] (nothing
    ever sets it), and has [0 <= read_count <= max(0, max_reads)]; and
    every read answered 200, of any gist, shows no [version_history] and
    [1 <= read_count <= max_reads]. *)
Theorem reachable_tables_are_well_formed (reqs : list (datetime * Request)) :
  table_invariant (snd (serve fromisoformat isoformat storage reqs empty_world))
  ∧ ∀ i view,
      fst (serve fromisoformat isoformat storage reqs empty_world) !! i
        = Some (Fetched (Return view)) →
      GistResponse.version_history view = None
      ∧ 1 <= GistResponse.read_count view <= GistResponse.max_reads view.
Proof.
  destruct (serve fromisoformat isoformat storage reqs empty_world) as [rs w] eqn:Hrun.
  apply (serve_table_invariant reqs empty_world w rs); [|exact Hrun].
  intros key g. cbn. rewrite lookup_empty. discriminate.
Qed.

End Invariants.

(** ** Runs: the order of effects *)

Section Effects.

Variable fromisoformat : string -> option parsed_datetime.
Variable isoformat : datetime -> string.
Variable storage : Storage.

Lemma generate_presigned_post_trace (key : string) (max_size_bytes : Z) (w : World) :
  ∃ post prints,
    generate_presigned_post storage key max_size_bytes w =
      (Return post,
       {| gists := gists w;
          trace := trace w ++ EvPresignedPost (bucket_name storage) key :: prints |})
    ∧ forallb is_print prints = true.
Proof.
  unfold generate_presigned_post, bind, history, emit, log; simpl.
  destruct (s3_generate_presigned_post _ _ _ _ _ _) as [response|msg]; simpl.
  - eexists _, []. split; reflexivity.
  - eexists None, [_]. rewrite <- app_assoc. split; reflexivity.
Qed.

Lemma api_create_gist_events (uuid4 : N) (now : datetime) (payload : GistCreate.t)
    (w w' : World) (r : Outcome GistCreateResponse.t) :
  api_create_gist fromisoformat storage uuid4 now payload w = (r, w') →
  ∃ evs, trace w' = (trace w ++ evs)%list ∧ block (bucket_name storage) evs.
Proof.
  unfold api_create_gist. unfold bind at 1.
  destruct (create_gist _ _ _ _ _ _ w) as [[g|exc] w1] eqn:Hcreate.
  - apply create_gist_returned in Hcreate as (_ & _ & ->). unfold bind.
    destruct (generate_presigned_post_trace (uuid_str (Gist.gist_id g)) 10485760
                {| gists := <[uuid4 := g]> (gists w); trace := trace w ++ [EvInsert g] |})
      as (post & prints & Hpost & Hprints).
    rewrite Hpost. intros Hr.
    exists (EvInsert g :: EvPresignedPost (bucket_name storage) (uuid_str (Gist.gist_id g))
              :: prints).
    split; [|apply block_create, Hprints].
    destruct post; injection Hr as _ <-; cbn [trace]; rewrite <- app_assoc; reflexivity.
  - apply create_gist_raised in Hcreate as ->. intros [= _ <-].
    exists []. split; [rewrite app_nil_r; reflexivity | apply block_nothing].
Qed.

Lemma handle_events (now : datetime) (req : Request) (w w' : World) (r : Response) :
  primary_key w →
  handle fromisoformat isoformat storage now req w = (r, w') →
  ∃ evs, trace w' = (trace w ++ evs)%list ∧ block (bucket_name storage) evs.
Proof.
  intros Hpk. destruct req as [uuid4 payload|id|id]; cbn [handle].
  - destruct (api_create_gist _ _ _ _ _ w) as [o w1] eqn:Hrun. intros [= _ <-].
    eapply api_create_gist_events, Hrun.
  - destruct (gists w !! id) as [g|] eqn:Hw.
    + pose proof (Hpk id g Hw) as Hid. destruct (expired g now) eqn:Hexp.
      * destruct (api_get_gist_expired isoformat storage now id g w Hw Hid Hexp)
          as (prints & -> & Hprints). intros [= _ <-].
        eexists. split; [reflexivity | apply block_destroy, Hprints].
      * destruct (Z_lt_le_dec (Gist.read_count g) (Gist.max_reads g)) as [Hlt|Hge].
        -- destruct (api_get_gist_within_budget isoformat storage now id g w Hw Hid Hexp Hlt)
             as (url & prints & -> & Hprints). intros [= _ <-].
           eexists. split; [reflexivity|].
           replace (uuid_str id)
             with (uuid_str (Gist.gist_id (Gist.set_read_count g (Gist.read_count g + 1))))
             by (cbn [Gist.set_read_count Gist.gist_id]; rewrite Hid; reflexivity).
           apply block_read, Hprints.
        -- destruct (api_get_gist_exhausted isoformat storage now id g w Hw Hid Hexp Hge)
             as (prints & -> & Hprints). intros [= _ <-].
           eexists. split; [reflexivity | apply block_destroy, Hprints].
    + rewrite (api_get_gist_missing isoformat storage now id w Hw). intros [= _ <-].
      exists []. split; [rewrite app_nil_r; reflexivity | apply block_nothing].
  - destruct (gists w !! id) as [g|] eqn:Hw.
    + destruct (api_delete_gist_found storage id g w Hw (Hpk id g Hw))
        as (prints & -> & Hprints). intros [= _ <-].
      eexists. split; [reflexivity | apply block_destroy, Hprints].
    + rewrite (api_delete_gist_missing storage id w Hw). intros [= _ <-].
      exists []. split; [rewrite app_nil_r; reflexivity | apply block_nothing].
Qed.

Lemma blob_deletes_from_prints (prints : list Event) :
  forallb is_print prints = true →
  blob_deletes_from (bucket_name storage) None prints = true.
Proof.
  induction prints as [|e prints IH]; [reflexivity|].
  cbn [forallb]. intros [He Hrest]%andb_prop.
  destruct e; try discriminate He. cbn. apply IH, Hrest.
Qed.

Lemma grants_from_prints (prints : list Event) :
  forallb is_print prints = true →
  grants_from (bucket_name storage) None prints = true.
Proof.
  induction prints as [|e prints IH]; [reflexivity|].
  cbn [forallb]. intros [He Hrest]%andb_prop.
  destruct e; try discriminate He. cbn. apply IH, Hrest.
Qed.

Lemma blob_deletes_from_block (evs : list Event) :
  block (bucket_name storage) evs →
  blob_deletes_from (bucket_name storage) None evs = true.
Proof.
  intros [|g prints Hp|id prints Hp|g prints Hp]; cbn [blob_deletes_from];
    rewrite ?String.eqb_refl; cbn [andb]; try reflexivity;
    apply blob_deletes_from_prints, Hp.
Qed.

Lemma grants_from_block (evs : list Event) :
  block (bucket_name storage) evs →
  grants_from (bucket_name storage) None evs = true.
Proof.
  intros [|g prints Hp|id prints Hp|g prints Hp]; cbn [grants_from];
    rewrite ?String.eqb_refl; cbn [andb]; try reflexivity;
    apply grants_from_prints, Hp.
Qed.

Lemma blob_deletes_from_app (bucket : string) (tr evs : list Event) :
  ∀ pending,
    blob_deletes_from bucket pending tr = true →
    blob_deletes_from bucket None evs = true →
    blob_deletes_from bucket pending (tr ++ evs)%list = true.
Proof.
  induction tr as [|e tr IH]; intros pending Htr Hevs.
  - destruct pending; [discriminate Htr | exact Hevs].
  - cbn [app blob_deletes_from] in *. destruct pending as [id|], e;
      try discriminate Htr; try (apply IH; assumption).
    apply andb_prop in Htr as [Hkey Hrest]. rewrite Hkey. cbn [andb].
    apply IH; assumption.
Qed.

Lemma grants_from_app (bucket : string) (tr evs : list Event) :
  ∀ pending,
    grants_from bucket pending tr = true →
    grants_from bucket None evs = true →
    grants_from bucket pending (tr ++ evs)%list = true.
Proof.
  induction tr as [|e tr IH]; intros pending Htr Hevs.
  - destruct pending; [discriminate Htr | exact Hevs].
  - cbn [app grants_from] in *. destruct pending as [g|], e;
      try discriminate Htr; try (apply IH; assumption).
    apply andb_prop in Htr as [Hkey Hrest]. rewrite Hkey. cbn [andb].
    apply IH; assumption.
Qed.

Lemma serve_effects (reqs : list (datetime * Request)) :
  ∀ (w w' : World) (rs : list Response),
    primary_key w →
    blob_deletes_follow (bucket_name storage) (trace w) = true →
    grants_follow_updates (bucket_name storage) (trace w) = true →
    serve fromisoformat isoformat storage reqs w = (rs, w') →
    blob_deletes_follow (bucket_name storage) (trace w') = true
    ∧ grants_follow_updates (bucket_name storage) (trace w') = true.
Proof.
  induction reqs as [|[now req] reqs IH]; intros w w' rs Hpk Hdel Hgr; cbn [serve].
  - intros [= _ <-]. auto.
  - destruct (handle _ _ _ now req w) as [r w1] eqn:Hstep.
    destruct (serve _ _ _ reqs w1) as [rs' w2] eqn:Hrest. intros [= _ <-].
    destruct (handle_events now req w w1 r Hpk Hstep) as (evs & Htrace & Hblock).
    apply (IH w1 w2 rs'); [| | |exact Hrest].
    + eapply handle_primary_key; eassumption.
    + unfold blob_deletes_follow. rewrite Htrace.
      apply blob_deletes_from_app; [exact Hdel | apply blob_deletes_from_block, Hblock].
    + unfold grants_follow_updates. rewrite Htrace.
      apply grants_from_app; [exact Hgr | apply grants_from_block, Hblock].
Qed.

(** X12. Whatever requests are served from the empty table, row deletions
    and blob deletions come in pairs in the order of effects: each time a
    row is deleted, by DELETE or by a read that finds the gist expired or
    exhausted, the very next effect is [delete_object] on the configured
    bucket with key [str(gist_id)], and no blob is deleted at any other
    moment. *)
Theorem every_deleted_row_has_its_blob_deleted (reqs : list (datetime * Request)) :
  blob_deletes_follow (bucket_name storage)
    (trace (snd (serve fromisoformat isoformat storage reqs empty_world))) = true.
Proof.
  destruct (serve fromisoformat isoformat storage reqs empty_world) as [rs w] eqn:Hrun.
  apply (serve_effects reqs empty_world w rs primary_key_empty eq_refl eq_refl Hrun).
Qed.

(** X13. Whatever requests are served from the empty table, counted reads
    and download grants come in pairs in the order of effects: each commit
    of an incremented [read_count] is followed at once by the request of a
    presigned URL for that gist's key, and no download grant is requested
    at any other moment, so never for a gist that is expired, exhausted
    or unknown. *)
Theorem download_grants_follow_counted_reads (reqs : list (datetime * Request)) :
  grants_follow_updates (bucket_name storage)
    (trace (snd (serve fromisoformat isoformat storage reqs empty_world))) = true.
Proof.
  destruct (serve fromisoformat isoformat storage reqs empty_world) as [rs w] eqn:Hrun.
  apply (serve_effects reqs empty_world w rs primary_key_empty eq_refl eq_refl Hrun).
Qed.

End Effects.

(** ** Expiration strings *)

Section Expiration.

Variable fromisoformat : string -> option parsed_datetime.
Variable isoformat : datetime -> string.
Variable storage : Storage.

(** X14. The expiration of a created gist is compared as the instant
    [create_gist] stored: the UTC instant of a timestamp with an offset,
    the wall clock of one without.  The first read at [t] is answered 410
    "Gist expired" and deletes the row exactly when that instant is
    strictly before [t]; a read at the very instant of expiration is still
    served (given a budget of at least one read), counts as read 1 and
    shows the stored instant in ISO form. *)
Theorem first_read_is_decided_on_stored_instant (uuid4 : N) (now t e : datetime)
    (payload : GistCreate.t) (created : GistCreateResponse.t) (w w1 : World) :
  primary_key w →
  api_create_gist fromisoformat storage uuid4 now payload w = (Return created, w1) →
  normalizes fromisoformat (GistCreate.expiration_date payload) (Some e) →
  1 <= default 100 (GistCreate.max_reads payload) →
  (e < t →
   ∃ w2,
     api_get_gist isoformat storage t (GistCreateResponse.gist_id created) w1 =
       (Raise (HTTPException 410 "Gist expired"), w2)
     ∧ gists w2 !! GistCreateResponse.gist_id created = None)
  ∧ (t <= e →
     ∃ view w2,
       api_get_gist isoformat storage t (GistCreateResponse.gist_id created) w1 =
         (Return view, w2)
       ∧ GistResponse.read_count view = 1
       ∧ GistResponse.expiration_date view = Some (isoformat e)).
Proof.
  intros Hpk Hcreate Hnorm Hcap. split.
  - intros Hpast.
    apply (past_expiration_gone_on_first_read fromisoformat isoformat storage uuid4 now t e
             payload created w w1 Hpk Hcreate Hnorm Hpast).
  - intros Hlive.
    destruct (api_create_gist_row fromisoformat storage uuid4 now payload w w1 created
                Hpk Hcreate) as (e0 & -> & Hpk1 & Hrow & Hnorm0).
    rewrite (normalizes_functional fromisoformat _ _ _ Hnorm0 Hnorm) in Hrow.
    destruct (api_get_gist_within_budget isoformat storage t uuid4 _ w1 Hrow eq_refl)
      as (url & prints & Hrun & _).
    + unfold expired. cbn [Gist_new Gist.expiration_date]. apply Z.ltb_ge, Hlive.
    + cbn [Gist_new Gist.read_count Gist.max_reads]. lia.
    + eexists _, _. split; [exact Hrun|]. split; reflexivity.
Qed.

(** X15. A timestamp with a non-zero offset whose UTC instant falls
    outside [datetime.min .. datetime.max] cannot be converted: the
    [OverflowError] of [astimezone] leaves [api_create_gist] uncaught, and
    nothing has happened by then: no row is stored and the storage is not
    called. *)
Theorem out_of_range_expiration_overflows (uuid4 : N) (now : datetime)
    (payload : GistCreate.t) (s : string) (dt : parsed_datetime) (utcoffset : Z)
    (w : World) :
  GistCreate.expiration_date payload = Some s →
  str_truthy s = true →
  fromisoformat s = Some dt →
  tzinfo dt = Some utcoffset →
  utcoffset ≠ 0 →
  wall dt - utcoffset < datetime_min ∨ datetime_max < wall dt - utcoffset →
  api_create_gist fromisoformat storage uuid4 now payload w = (Raise OverflowError, w).
Proof.
  intros Hexp Hs Hparse Htz Hoff Hrange.
  unfold api_create_gist, create_gist. rewrite Hexp. unfold opt_str_truthy. rewrite Hs.
  change (default "" (Some s)) with s. rewrite Hparse, Htz.
  assert (astimezone_utc_naive dt utcoffset = None) as ->.
  { unfold astimezone_utc_naive. rewrite (proj2 (Z.eqb_neq _ _) Hoff).
    destruct Hrange as [Hlow|Hhigh].
    - rewrite (proj2 (Z.leb_gt _ _) Hlow). reflexivity.
    - rewrite (proj2 (Z.leb_gt _ _) Hhigh), andb_false_r. reflexivity. }
  reflexivity.
Qed.

End Expiration.

(** ** Object keys *)

Lemma hex_digit_inj (d d' : N) :
  (d < 16)%N → (d' < 16)%N → hex_digit d = hex_digit d' → d = d'.
Proof.
  intros Hd Hd' Heq.
  assert (d = 0 ∨ d = 1 ∨ d = 2 ∨ d = 3 ∨ d = 4 ∨ d = 5 ∨ d = 6 ∨ d = 7 ∨ d = 8 ∨ d = 9
          ∨ d = 10 ∨ d = 11 ∨ d = 12 ∨ d = 13 ∨ d = 14 ∨ d = 15)%N as Hcase by lia.
  assert (d' = 0 ∨ d' = 1 ∨ d' = 2 ∨ d' = 3 ∨ d' = 4 ∨ d' = 5 ∨ d' = 6 ∨ d' = 7 ∨ d' = 8
          ∨ d' = 9 ∨ d' = 10 ∨ d' = 11 ∨ d' = 12 ∨ d' = 13 ∨ d' = 14 ∨ d' = 15)%N
    as Hcase' by lia.
  repeat (destruct Hcase as [->|Hcase]); try subst d;
    repeat (destruct Hcase' as [->|Hcase']); try subst d';
    first [reflexivity | cbv in Heq; discriminate Heq].
Qed.

Lemma hex_fixed_length (width : nat) :
  ∀ (n : N) (acc : string),
    String.length (hex_fixed width n acc) = (width + String.length acc)%nat.
Proof.
  induction width as [|width IH]; intros n acc; cbn [hex_fixed].
  - reflexivity.
  - rewrite IH. cbn [String.length]. lia.
Qed.

(** The digits determine the number, up to the width printed. *)
Lemma hex_fixed_inj (width : nat) :
  ∀ (n m : N) (acc acc' : string),
    String.length acc = String.length acc' →
    hex_fixed width n acc = hex_fixed width m acc' →
    (n mod 16 ^ N.of_nat width = m mod 16 ^ N.of_nat width)%N ∧ acc = acc'.
Proof.
  induction width as [|width IH]; intros n m acc acc' Hlen; cbn [hex_fixed].
  - intros ->. split; [|reflexivity]. cbn. rewrite !N.mod_1_r. reflexivity.
  - intros Heq. apply IH in Heq as [Hhigh Hacc]; [|cbn [String.length]; lia].
    injection Hacc as Hdigit Hacc. split; [|exact Hacc].
    apply hex_digit_inj in Hdigit; [|apply N.mod_lt; lia|apply N.mod_lt; lia].
    rewrite Nnat.Nat2N.inj_succ, N.pow_succ_r', !N.Div0.mod_mul_r, Hdigit, Hhigh.
    reflexivity.
Qed.

Ltac explode_32 h Hlen :=
  do 32 (destruct h as [|? h]; [discriminate Hlen|]);
  destruct h; [|discriminate Hlen].

Lemma dashed_inj (h h' : string) :
  String.length h = 32%nat → String.length h' = 32%nat →
  dashed h = dashed h' → h = h'.
Proof.
  intros Hlen Hlen' Heq. explode_32 h Hlen. explode_32 h' Hlen'.
  cbv in Heq. injection Heq. intros. subst. reflexivity.
Qed.

Lemma dashed_length (h : string) :
  String.length h = 32%nat → String.length (dashed h) = 36%nat.
Proof. intros Hlen. explode_32 h Hlen. reflexivity. Qed.

(** X16. The object key of a gist, [str(gist.gist_id)], has 36 characters,
    and two different ids never give the same key: each row has a blob key
    of its own. *)
Theorem uuid_str_injective (u v : N) :
  (u < UUID_LIMIT)%N →
  (v < UUID_LIMIT)%N →
  String.length (uuid_str u) = 36%nat
  ∧ (uuid_str u = uuid_str v → u = v).
Proof.
  intros Hu Hv. change (uuid_str u) with (dashed (hex_fixed 32 u "")).
  change (uuid_str v) with (dashed (hex_fixed 32 v "")).
  split; [apply dashed_length, hex_fixed_length|].
  intros Heq. apply dashed_inj in Heq; [|apply hex_fixed_length..].
  apply hex_fixed_inj in Heq as [Hmod _]; [|reflexivity].
  change (16 ^ N.of_nat 32)%N with UUID_LIMIT in Hmod.
  rewrite !N.mod_small in Hmod by assumption. exact Hmod.
Qed.

(** ** The further statements on concrete requests *)

(** Gist 7 is read while gist 8 sits in the table, expired since 2025. *)
Lemma requests_touch_one_gist_witness :
  gists (snd (handle Calendar.fromisoformat Calendar.isoformat storage_serving noon_2026
                (GET_gist 7)
                {| gists := {[ 7%N := sample_gist None 0 5;
                               8%N := Gist_new 8 0 [] (Some noon_2025) None ]};
                   trace := [] |})) !! 8%N
  = Some (Gist_new 8 0 [] (Some noon_2025) None).
Proof.
  rewrite (requests_touch_one_gist Calendar.fromisoformat Calendar.isoformat
             storage_serving noon_2026 (GET_gist 7)
             {| gists := {[ 7%N := sample_gist None 0 5;
                            8%N := Gist_new 8 0 [] (Some noon_2025) None ]};
                trace := [] |}
             (snd (handle Calendar.fromisoformat Calendar.isoformat storage_serving
                     noon_2026 (GET_gist 7)
                     {| gists := {[ 7%N := sample_gist None 0 5;
                                    8%N := Gist_new 8 0 [] (Some noon_2025) None ]};
                        trace := [] |}))
             (fst (handle Calendar.fromisoformat Calendar.isoformat storage_serving
                     noon_2026 (GET_gist 7)
                     {| gists := {[ 7%N := sample_gist None 0 5;
                                    8%N := Gist_new 8 0 [] (Some noon_2025) None ]};
                        trace := [] |}))).
  - reflexivity.
  - intros id g. cbn [gists].
    intros [[<- <-]|[_ [<- <-]%lookup_singleton_Some]]%lookup_insert_Some; reflexivity.
  - reflexivity.
  - discriminate.
Defined.

Lemma create_then_delete_restores_table_witness :
  ∃ w2,
    api_delete_gist storage_serving 7 (created_world (sample_payload None (Some 5)))
    = (Return tt, w2)
    ∧ gists w2 = gists empty_world.
Proof.
  apply (create_then_delete_restores_table Calendar.fromisoformat storage_serving 7
           noon_2025 (sample_payload None (Some 5)) sample_created empty_world
           (created_world (sample_payload None (Some 5))) eq_refl).
Defined.

(** Gist 7 is created; gist 9 is asked for before and after. *)
Lemma undrawn_ids_are_not_found_witness :
  uuid_str 9 = "00000000-0000-0000-0000-000000000009"
  ∧ fst (serve_with storage_serving
         [(1, GET_gist 9); (2, POST_gists 7 (sample_payload None None)); (3, DELETE_gist 9)]
         empty_world) !! 0%nat
  = Some (Fetched (Raise (HTTPException 404 "Gist not found")))
  ∧ fst (serve_with storage_serving
           [(1, GET_gist 9); (2, POST_gists 7 (sample_payload None None)); (3, DELETE_gist 9)]
           empty_world) !! 2%nat
    = Some (Deleted (Raise (HTTPException 404 "Gist not found"))).
Proof.
  pose proof (undrawn_ids_are_not_found Calendar.fromisoformat Calendar.isoformat
                storage_serving 9
                [(1, GET_gist 9); (2, POST_gists 7 (sample_payload None None));
                 (3, DELETE_gist 9)]
                (fst (serve_with storage_serving
                        [(1, GET_gist 9); (2, POST_gists 7 (sample_payload None None));
                         (3, DELETE_gist 9)] empty_world))
                (snd (serve_with storage_serving
                        [(1, GET_gist 9); (2, POST_gists 7 (sample_payload None None));
                         (3, DELETE_gist 9)] empty_world))) as Hrs.
  assert (never_redrawn 9
            [(1, GET_gist 9); (2, POST_gists 7 (sample_payload None None));
             (3, DELETE_gist 9)]) as Hnr by (repeat constructor; discriminate).
  specialize (Hrs eq_refl Hnr eq_refl).
  destruct (Hrs 0%nat 1) as [H0 _]. destruct (Hrs 2%nat 3) as [_ H2].
  split; [reflexivity|]. split; [exact (H0 eq_refl) | exact (H2 eq_refl)].
Defined.

(** Gist 7 is created without [max_reads] and read 101 times. *)
Lemma budget_is_exactly_max_reads_witness :
  ∃ rs w2,
    serve_with storage_serving (reads 7 (repeat noon_2026 101))
      (created_world (sample_payload None None)) = (rs, w2)
    ∧ read_count_seen <$> rs !! 99%nat = Some (Some 100)
    ∧ rs !! 100%nat = Some (Fetched (Raise (HTTPException 410 "Read limit exceeded")))
    ∧ gists w2 !! 7%N = None.
Proof.
  destruct (budget_is_exactly_max_reads Calendar.fromisoformat Calendar.isoformat
              storage_serving 7 noon_2025 (sample_payload None None) sample_created
              empty_world (created_world (sample_payload None None))
              (repeat noon_2026 101) primary_key_empty eq_refl eq_refl)
    as (rs & w2 & Hserve & Hviews & Hlast & Hgone).
  - cbn. lia.
  - reflexivity.
  - exists rs, w2. split; [exact Hserve|]. split; [|split; [exact Hlast | exact Hgone]].
    apply (Hviews 99%nat). cbn. lia.
Defined.


(** Gist 7 expires at 14:00+02:00, which is noon UTC, on 2026-01-01. *)
Lemma first_read_is_decided_on_stored_instant_witness :
  (∃ w2,
     api_get_gist Calendar.isoformat storage_serving (noon_2026 + 1) 7
       (created_world (sample_payload (Some "2026-01-01T14:00:00+02:00") (Some 5)))
     = (Raise (HTTPException 410 "Gist expired"), w2)
     ∧ gists w2 !! 7%N = None)
  ∧ ∃ view w2,
      api_get_gist Calendar.isoformat storage_serving noon_2026 7
        (created_world (sample_payload (Some "2026-01-01T14:00:00+02:00") (Some 5)))
      = (Return view, w2)
      ∧ GistResponse.read_count view = 1
      ∧ GistResponse.expiration_date view = Some (Calendar.isoformat noon_2026).
Proof.
  assert (normalizes Calendar.fromisoformat
            (GistCreate.expiration_date
               (sample_payload (Some "2026-01-01T14:00:00+02:00") (Some 5)))
            (Some noon_2026)) as Hnorm.
  { exists {| wall := noon_2026 + 2 * 3600 * 1000000;
              tzinfo := Some (2 * 3600 * 1000000) |}, noon_2026.
    split; [reflexivity|]. split; reflexivity. }
  split.
  - apply (first_read_is_decided_on_stored_instant Calendar.fromisoformat
             Calendar.isoformat storage_serving 7 noon_2025 (noon_2026 + 1) noon_2026
             (sample_payload (Some "2026-01-01T14:00:00+02:00") (Some 5)) sample_created
             empty_world
             (created_world (sample_payload (Some "2026-01-01T14:00:00+02:00") (Some 5)))
             primary_key_empty eq_refl Hnorm); cbn; unfold noon_2026; lia.
  - apply (first_read_is_decided_on_stored_instant Calendar.fromisoformat
             Calendar.isoformat storage_serving 7 noon_2025 noon_2026 noon_2026
             (sample_payload (Some "2026-01-01T14:00:00+02:00") (Some 5)) sample_created
             empty_world
             (created_world (sample_payload (Some "2026-01-01T14:00:00+02:00") (Some 5)))
             primary_key_empty eq_refl Hnorm); cbn; lia.
Defined.

(** Five hours east of UTC at the first instant of year 1. *)
Lemma out_of_range_expiration_overflows_witness :
  Calendar.fromisoformat "0001-01-01T00:00:00+05:00"
  = Some {| wall := 0; tzinfo := Some (5 * 3600 * 1000000) |}
  ∧ api_create_gist Calendar.fromisoformat storage_serving 7 noon_2025
      (sample_payload (Some "0001-01-01T00:00:00+05:00") None) empty_world
    = (Raise OverflowError, empty_world).
Proof.
  split; [reflexivity|].
  apply (out_of_range_expiration_overflows Calendar.fromisoformat storage_serving 7
           noon_2025 (sample_payload (Some "0001-01-01T00:00:00+05:00") None)
           "0001-01-01T00:00:00+05:00"
           {| wall := 0; tzinfo := Some (5 * 3600 * 1000000) |} (5 * 3600 * 1000000));
    try reflexivity.
  - lia.
  - left. reflexivity.
Defined.

Lemma uuid_str_injective_witness :
  (7 < UUID_LIMIT)%N ∧ (8 < UUID_LIMIT)%N
  ∧ String.length (uuid_str 7) = 36%nat ∧ uuid_str 7 ≠ uuid_str 8.
Proof.
  split; [reflexivity|]. split; [reflexivity|].
  destruct (uuid_str_injective 7 8 eq_refl eq_refl) as [Hlen Hinj].
  split; [exact Hlen|]. intros Heq. specialize (Hinj Heq). discriminate Hinj.
Defined.
